(** * The in-process generic-metadata backend and its validation harness

    A shallow embedding of [stdlib/public/runtime/GenericMetadataBuilder.cpp]:
    the [InProcessReaderWriter] backend (buffers, bounds-checked writable data,
    symbol lookup, allocation, trace log) and
    [validateExternalGenericMetadataBuilder], which rebuilds a generic value
    metadata record through the builder and compares it with the original.

    The target is a 64-bit little-endian process: [uintptr_t], [size_t],
    [uint64_t] and every pointer are 64-bit values, kept as [Z] with the
    wrap-around of unsigned arithmetic written out.  Pointers are plain
    addresses: pointer authentication is not modelled.

    The builder itself, [ValueWitness.def], the ABI's type declarations and
    the runtime's entry points are defined outside the file; they enter as
    the classes [Platform], [Runtime] and [Builder]. *)

From Stdlib Require Import ZArith List String Ascii Bool Lia.
From Stdlib Require DecimalString HexadecimalString.
From coqutil Require Import Byte Word.LittleEndianList.
Import ListNotations.
Local Open Scope string_scope.
Local Open Scope Z_scope.

(** ** Memory of the process *)

(** Unsigned 64-bit wrap-around ([uintptr_t], [size_t], [uint64_t]). *)
Definition wrap64 (z : Z) : Z := z mod 2 ^ 64.

(** [sizeof(void * )] in bytes. *)
Definition POINTER_SIZE : nat := 8%nat.

(** [(unsigned)-1], the value of [-1u]. *)
Definition UINT_MAX : Z := 2 ^ 32 - 1.

(** A byte-addressed memory.  Every address holds a byte and can be stored
    to: the fault of a real process on an address that is not mapped is not
    modelled, so what is proved about a load or a store speaks of mapped
    memory. *)
Definition Memory : Type := Z -> byte.

Fixpoint loadBytes (m : Memory) (addr : Z) (n : nat) : list byte :=
  match n with
  | O => []
  | S k => m addr :: loadBytes m (addr + 1) k
  end.

Fixpoint storeBytes (m : Memory) (addr : Z) (bs : list byte) : Memory :=
  match bs with
  | [] => m
  | b :: rest => fun a => if a =? addr then b else storeBytes m (addr + 1) rest a
  end.

(** [*p] for a pointer-sized [p]: eight bytes, least significant first. *)
Definition loadPointer (m : Memory) (addr : Z) : Z :=
  le_combine (loadBytes m addr POINTER_SIZE).

(** [*p = v] for a pointer-sized [p]. *)
Definition storePointer (m : Memory) (addr v : Z) : Memory :=
  storeBytes m addr (le_split POINTER_SIZE v).

(** libc [memcmp] on two byte sequences of one length: zero when they agree,
    otherwise the difference of the first pair of bytes (as [unsigned char])
    that differ. *)
Fixpoint memcmp_bytes (xs ys : list byte) : Z :=
  match xs, ys with
  | x :: xs', y :: ys' =>
      if byte.unsigned x =? byte.unsigned y then memcmp_bytes xs' ys'
      else byte.unsigned x - byte.unsigned y
  | _, _ => 0
  end.

Definition memcmp (m : Memory) (s1 s2 n : Z) : Z :=
  memcmp_bytes (loadBytes m s1 (Z.to_nat n)) (loadBytes m s2 (Z.to_nat n)).

(** ** Strings and printf conversions *)

Definition LF : string := String (ascii_of_nat 10) EmptyString.
Definition DQUOTE : string := String (ascii_of_nat 34) EmptyString.
Definition SLASH : ascii := ascii_of_nat 47.

(** The [%u] conversion. *)
Definition printf_u (n : Z) : string :=
  DecimalString.NilZero.string_of_uint (N.to_uint (Z.to_N n)).

(** libc [strrchr] for a character other than NUL: the suffix of [s] that
    starts at the last occurrence of [c]. *)
Fixpoint strrchr (s : string) (c : ascii) : option string :=
  match s with
  | EmptyString => None
  | String a rest =>
      match strrchr rest c with
      | Some r => Some r
      | None => if Ascii.eqb a c then Some s else None
      end
  end.

(** [p + 1] on a [const char *] that points at a character of a string. *)
Definition next_char (s : string) : string :=
  match s with
  | EmptyString => EmptyString
  | String _ rest => rest
  end.

(** ** Builder results *)

Record BuilderError : Type := mkBuilderError { cStr : string }.

(** [BuilderErrorOr<T>]: a value or an error. *)
Inductive BuilderErrorOr (T : Type) : Type :=
| Value (v : T)
| Error (e : BuilderError).
Arguments Value {T} v.
Arguments Error {T} e.

Definition getError {T} (r : BuilderErrorOr T) : option BuilderError :=
  match r with
  | Value _ => None
  | Error e => Some e
  end.

Definition getValue {T} (r : BuilderErrorOr T) : option T :=
  match r with
  | Value v => Some v
  | Error _ => None
  end.

(** ** The process as the code sees it *)

(** A call of the harness to one of its collaborators. *)
Inductive Call : Type :=
| CallEqualVWTs (original newMetadata : Z)
| CallMemcmp (s1 s2 n : Z)
| CallDumpMetadata (metadata : Z)
| CallFatalError (flags : Z) (message : string).

(** The state the code reads and writes: the memory, what has been written to
    [stderr] so far (one entry per [fprintf]/[fputs] call, oldest first; the
    text libc's [assert] prints before [abort] is not part of it), and
    the regions handed out by the metadata allocator (address and size, oldest
    first).  [calls] is a history of the harness's calls to its collaborators;
    no code reads it. *)
Record World : Type := mkWorld {
  heap : Memory;
  stderr : list string;
  allocated : list (Z * Z);
  calls : list Call
}.

Definition set_heap (m : Memory) (w : World) : World :=
  mkWorld m (stderr w) (allocated w) (calls w).

Definition add_stderr (s : string) (w : World) : World :=
  mkWorld (heap w) (stderr w ++ [s]) (allocated w) (calls w).

Definition add_allocated (p sz : Z) (w : World) : World :=
  mkWorld (heap w) (stderr w) (allocated w ++ [(p, sz)]) (calls w).

Definition add_call (c : Call) (w : World) : World :=
  mkWorld (heap w) (stderr w) (allocated w) (calls w ++ [c]).

(** Why a process stopped. *)
Inductive Abort : Type :=
| AssertionFailure
| FatalError (flags : Z) (message : string).

(** A computation either returns to its caller or ends the process. *)
Inductive Outcome (A : Type) : Type :=
| Finished (a : A) (w : World)
| Terminated (why : Abort) (w : World).
Arguments Finished {A} a w.
Arguments Terminated {A} why w.

Definition M (A : Type) : Type := World -> Outcome A.

Definition ret {A} (a : A) : M A := fun w => Finished a w.

Definition bind {A B} (c : M A) (k : A -> M B) : M B :=
  fun w =>
    match c w with
    | Finished a w' => k a w'
    | Terminated why w' => Terminated why w'
    end.

Notation "x <- c ;; k" := (bind c (fun x => k))
  (at level 61, c at next level, right associativity).
Notation "c ;;; k" := (bind c (fun _ => k))
  (at level 61, right associativity).

Definition final_world {A} (o : Outcome A) : World :=
  match o with
  | Finished _ w => w
  | Terminated _ w => w
  end.

Definition returned {A} (o : Outcome A) : bool :=
  match o with
  | Finished _ _ => true
  | Terminated _ _ => false
  end.

(** [fprintf(stderr, ...)], [vfprintf(stderr, ...)], [fputs(..., stderr)]
    with the formatted text as argument. *)
Definition fputs_stderr (s : string) : M unit :=
  fun w => Finished tt (add_stderr s w).

Definition record_call (c : Call) : M unit :=
  fun w => Finished tt (add_call c w).

(** ** Platform and build configuration *)

(** [Dl_info] as [dladdr] fills it; a null [const char *] is [None]. *)
Record Dl_info : Type := mkDl_info {
  dli_fname : option string;
  dli_fbase : Z;
  dli_sname : option string;
  dli_saddr : Z
}.

Inductive DlHandle : Type := RTLD_SELF | RTLD_DEFAULT.

Inductive MetadataAllocatorTag : Type := GenericValueMetadataTag.

(** What the file is compiled against and runs on. *)
Class Platform : Type := {
  (** [SWIFT_STDLIB_HAS_DLADDR && __has_include(<dlfcn.h>)] *)
  USE_DLADDR : bool;
  (** [#ifdef RTLD_SELF] *)
  HAVE_RTLD_SELF : bool;
  (** [assert] is compiled out *)
  NDEBUG : bool;
  (** [dladdr]: [None] when it returns 0 *)
  dladdr : Z -> option Dl_info;
  (** [dlsym]: the address of the symbol, 0 when there is none *)
  dlsym : DlHandle -> string -> Z;
  (** the [%p] conversion, which is implementation-defined *)
  printf_p : Z -> string;
  (** the value of the environment variable, as each call reads it *)
  SWIFT_DEBUG_VALIDATE_EXTERNAL_GENERIC_METADATA_BUILDER : Z;
  (** [MetadataAllocator(tag).Allocate(size, alignment)]: the address it
      returns, given the regions handed out before *)
  MetadataAllocator_Allocate : MetadataAllocatorTag -> list (Z * Z) -> Z -> Z -> Z
}.

(** A field of [ValueWitness.def], by the macro that lists it and its
    [LOWER_ID]. *)
Inductive WitnessEntry : Type :=
| FUNCTION_VALUE_WITNESS (LOWER_ID : string)
| DATA_VALUE_WITNESS (LOWER_ID : string).

Definition LOWER_ID_of (e : WitnessEntry) : string :=
  match e with
  | FUNCTION_VALUE_WITNESS id => id
  | DATA_VALUE_WITNESS id => id
  end.

(** A value witness table as [equalVWTs] reads it: [field id] is the value of
    [table->id] (a function pointer, a size, or the opaque value of the
    flags), also for the fields past a table that is not an enum table;
    [hasEnumWitnesses] says that [dyn_cast<EnumValueWitnessTable>(table)] is
    not null. *)
Record ValueWitnessTable : Type := mkValueWitnessTable {
  field : string -> Z;
  hasEnumWitnesses : bool
}.

(** A call that [swift_getTypeByMangledName] makes to one of the two
    substitution callbacks, with what [SubstGenericParametersFromMetadata]
    answers. *)
Inductive SubstitutionQuery : Type :=
| QueryMetadata (depth index : Z) (result : Z)
| QueryWitnessTable (type : Z) (index : Z) (result : Z).

(** The ABI declarations and runtime entry points the file uses and does not
    define.  Descriptors, patterns and metadata records are addresses. *)
Class Runtime : Type := {
  (** [dyn_cast<ValueTypeDescriptor>(description)] is not null *)
  isa_ValueTypeDescriptor : Memory -> Z -> bool;
  (** [valueDescriptor->isGeneric()] *)
  isGeneric : Memory -> Z -> bool;
  (** [valueDescriptor->getFullGenericContextHeader()
        .DefaultInstantiationPattern.get()] *)
  DefaultInstantiationPattern : Memory -> Z -> Z;
  (** [sizeof(ValueMetadata)] *)
  sizeof_ValueMetadata : Z;
  (** [asFullMetadata(metadata)], the address of the record's header *)
  asFullMetadata : Z -> Z;
  (** [static_cast<Metadata *>(full)] for a [FullMetadata<Metadata> *]: the
      address of the record that follows the header at [full] *)
  static_cast_Metadata : Z -> Z;
  (** [fullMetadata->ValueWitnesses], the address of the table *)
  ValueWitnesses : Memory -> Z -> Z;
  (** the table at an address *)
  ValueWitnessTable_at : Memory -> Z -> ValueWitnessTable;
  (** the fields [ValueWitness.def] lists under
      [WANT_ONLY_REQUIRED_VALUE_WITNESSES], in its order *)
  REQUIRED_VALUE_WITNESSES : list WitnessEntry;
  (** the fields it lists under [WANT_ONLY_ENUM_VALUE_WITNESSES] *)
  ENUM_VALUE_WITNESSES : list WitnessEntry;
  (** [swift_getTypeName(type, qualified)] *)
  swift_getTypeName : Memory -> Z -> bool -> string;
  (** [swift_getTypeByMangledName(LayoutComplete, name, genericArgs, ...)] for
      the substitutions of a metadata record: the callbacks it invokes, and the
      address of the type's metadata or its error *)
  swift_getTypeByMangledName :
    Memory -> Z -> string -> list SubstitutionQuery * BuilderErrorOr Z
}.

(** ** [InProcessReaderWriter] *)

Module InProcessReaderWriter.

(** [Buffer<T>]: a pointer.  The element type only directs overloading in the
    source; every [Buffer<T>] is this record. *)
Record Buffer : Type := mkBuffer { ptr : Z }.

(** [Buffer()] *)
Definition null_buffer : Buffer := mkBuffer 0.

(** [Buffer<T>::cast<U>()] *)
Definition cast (b : Buffer) : Buffer := mkBuffer (ptr b).

Definition isNull (b : Buffer) : bool := ptr b =? 0.

Definition getAddress (b : Buffer) : Z := ptr b.

(** The [resolvePointer] and [resolveFunctionPointer] overloads for stored
    absolute pointers follow.  The overloads for [RelativeDirectPointer],
    [RelativeIndirectablePointer] and [TargetCompactFunctionPointer] return
    what the [get()] of those types returns; the types are declared outside
    the file and no write operation stores them. *)

(** [resolvePointer(uintptr_t *ptr)] *)
Definition resolvePointer_uintptr (m : Memory) (p : Z) : BuilderErrorOr Buffer :=
  Value (mkBuffer (loadPointer m p)).

(** [resolvePointer(const U *ptr)], [U] a pointer type *)
Definition resolvePointer (m : Memory) (p : Z) : BuilderErrorOr Buffer :=
  Value (mkBuffer (loadPointer m p)).

(** [resolveFunctionPointer(const U *ptr)] *)
Definition resolveFunctionPointer (m : Memory) (p : Z) : BuilderErrorOr Buffer :=
  Value (mkBuffer (loadPointer m p)).

(** [WritableData<T>]: a buffer and the size of its memory. *)
Record WritableData : Type := mkWritableData {
  buffer : Buffer;
  size : Z
}.

(** The address of the first byte of the data. *)
Definition base (d : WritableData) : Z := ptr (buffer d).

(** The condition [checkPtr] asserts:
    [(uintptr_t)toCheck - (uintptr_t)this->ptr < size]. *)
Definition checkPtr_condition (d : WritableData) (toCheck : Z) : bool :=
  wrap64 (toCheck - base d) <? size d.

(** The overloads of [writePointer], and [writeFunctionPointer]. *)
Inductive WriteOperation : Type :=
| WritePointer_StoredPointer
| WritePointer_Typed
| WritePointer_Const
| WritePointer_GenericArgument
| WritePointer_Converting
| WriteFunctionPointer.

Record SymbolInfo : Type := mkSymbolInfo {
  symbolName : string;
  libraryName : string;
  pointerOffset : Z
}.

Definition UNKNOWN : string := "<unknown>".

Section Backend.
Context `{Platform}.

(** [assert(c)]: the process ends when [c] fails and assertions are compiled
    in.  The diagnostic libc prints on the way is not modelled. *)
Definition assert (c : bool) : M unit :=
  fun w =>
    if NDEBUG then Finished tt w
    else if c then Finished tt w
    else Terminated AssertionFailure w.

Definition checkPtr (d : WritableData) (toCheck : Z) : M unit :=
  assert (checkPtr_condition d toCheck).

(** [*to = v] *)
Definition assign (to v : Z) : M unit :=
  fun w => Finished tt (set_heap (storePointer (heap w) to v) w).

(** [writePointer(StoredPointer *to, Buffer<U> target)] *)
Definition writePointer_StoredPointer (d : WritableData) (to : Z) (target : Buffer) : M unit :=
  checkPtr d to ;;;
  assign to (ptr target).

(** [writePointer(U **to, Buffer<U> target)] *)
Definition writePointer_Typed (d : WritableData) (to : Z) (target : Buffer) : M unit :=
  checkPtr d to ;;;
  assign to (ptr target).

(** [writePointer(const U **to, Buffer<U> target)] *)
Definition writePointer_Const (d : WritableData) (to : Z) (target : Buffer) : M unit :=
  checkPtr d to ;;;
  assign to (ptr target).

(** [writePointer(const Metadata **to, GenericArgument target)] *)
Definition writePointer_GenericArgument (d : WritableData) (to : Z) (target : Z) : M unit :=
  checkPtr d to ;;;
  assign to target.

(** [writePointer(To *to, Buffer<From> target)] *)
Definition writePointer_Converting (d : WritableData) (to : Z) (target : Buffer) : M unit :=
  checkPtr d to ;;;
  assign to (ptr target).

(** [writeFunctionPointer(U *to, Buffer<const char> target)] *)
Definition writeFunctionPointer (d : WritableData) (to : Z) (target : Buffer) : M unit :=
  checkPtr d to ;;;
  let castTarget := ptr target in
  assign to castTarget.

(** One entry point for the six write operations; a [GenericArgument] is the
    pointer of the buffer given. *)
Definition write (op : WriteOperation) (d : WritableData) (to : Z) (target : Buffer) : M unit :=
  match op with
  | WritePointer_StoredPointer => writePointer_StoredPointer d to target
  | WritePointer_Typed => writePointer_Typed d to target
  | WritePointer_Const => writePointer_Const d to target
  | WritePointer_GenericArgument => writePointer_GenericArgument d to (ptr target)
  | WritePointer_Converting => writePointer_Converting d to target
  | WriteFunctionPointer => writeFunctionPointer d to target
  end.


(** [getSymbolInfo(Buffer<T> buffer)] *)
Definition getSymbolInfo (buffer : Buffer) : SymbolInfo :=
  if USE_DLADDR then
    match dladdr (ptr buffer) with
    | None => mkSymbolInfo UNKNOWN UNKNOWN 0
    | Some info =>
        let fname := match dli_fname info with None => UNKNOWN | Some s => s end in
        let sname := match dli_sname info with None => UNKNOWN | Some s => s end in
        let libName :=
          match strrchr fname SLASH with
          | Some slash => next_char slash
          | None => fname
          end in
        mkSymbolInfo sname libName (wrap64 (getAddress buffer - dli_fbase info))
    end
  else mkSymbolInfo UNKNOWN UNKNOWN 0.

(** [isLoggingEnabled()] *)
Definition isLoggingEnabled : bool := true.

(** [log(filename, line, function, fmt, ...)]; [message] is the text
    [vfprintf] produces from [fmt] and the arguments. *)
Definition log (filename : string) (line : Z) (function : string) (message : string) : M unit :=
  if SWIFT_DEBUG_VALIDATE_EXTERNAL_GENERIC_METADATA_BUILDER <? 2 then ret tt
  else
    fputs_stderr (filename ++ ":" ++ printf_u line ++ ":" ++ function ++ ": ") ;;;
    fputs_stderr message ;;;
    fputs_stderr LF.

(** The [LOG] macro at a line of this file. *)
Definition LOG (line : Z) (function : string) (message : string) : M unit :=
  log "GenericMetadataBuilder.cpp" line function message.

(** [getSymbolPointer(const char *name)] *)
Definition getSymbolPointer (name : string) : M (BuilderErrorOr Buffer) :=
  if USE_DLADDR then
    let p := if HAVE_RTLD_SELF then dlsym RTLD_SELF name else dlsym RTLD_DEFAULT name in
    LOG 222 "getSymbolPointer"
        ("getSymbolPointer(" ++ DQUOTE ++ name ++ DQUOTE ++ ") -> " ++ printf_p p) ;;;
    if p =? 0 then
      ret (Error (mkBuilderError ("dlsym could not find symbol '" ++ name ++ "'")))
    else ret (Value (mkBuffer p))
  else
    ret (Error (mkBuilderError "getSymbolPointer is not implemented on this platform")).

(** [allocate<T>(size_t size)]; [alignof(void * )] is 8. *)
Definition allocate (sz : Z) : M WritableData :=
  fun w =>
    let bytes := MetadataAllocator_Allocate GenericValueMetadataTag (allocated w) sz 8 in
    Finished (mkWritableData (mkBuffer bytes) sz) (add_allocated bytes sz w).

Context `{Runtime}.

Definition get_heap : M Memory := fun w => Finished (heap w) w.

(** The two lambdas handed to [swift_getTypeByMangledName]: each logs the
    answer it returns. *)
Definition log_substitution (q : SubstitutionQuery) : M unit :=
  match q with
  | QueryMetadata depth index result =>
      LOG 244 "operator()"
          ("substitutions.getMetadata(" ++ printf_u depth ++ ", " ++ printf_u index
             ++ ").Ptr = " ++ printf_p result)
  | QueryWitnessTable type index result =>
      LOG 250 "operator()"
          ("substitutions.getWitnessTable(" ++ printf_p type ++ ", " ++ printf_u index
             ++ ") = " ++ printf_p result)
  end.

Fixpoint log_substitutions (qs : list SubstitutionQuery) : M unit :=
  match qs with
  | [] => ret tt
  | q :: rest => log_substitution q ;;; log_substitutions rest
  end.

(** [getTypeByMangledName(containingMetadataBuffer, metadataMangleNode,
    mangledTypeName)] *)
Definition getTypeByMangledName (containingMetadataBuffer : WritableData)
    (metadataMangleNode : Z) (mangledTypeName : string) : M (BuilderErrorOr Buffer) :=
  m <- get_heap ;;
  let metadata := static_cast_Metadata (ptr (buffer containingMetadataBuffer)) in
  let lookup := swift_getTypeByMangledName m metadata mangledTypeName in
  log_substitutions (fst lookup) ;;;
  match snd lookup with
  | Error e => ret (Error e)
  | Value type => ret (Value (mkBuffer type))
  end.

End Backend.

End InProcessReaderWriter.

(** ** [GenericMetadataBuilder], a client of the backend *)

Module GenericMetadataBuilder.
Import InProcessReaderWriter.

(** The operations of a [ReaderWriter] that leave memory and the allocator
    alone, by the type of their answer.  [Load] is a read through the [ptr] of
    a buffer. *)
Inductive Query : Type -> Type :=
| ResolvePointerUintptr (p : Z) : Query (BuilderErrorOr Buffer)
| ResolvePointer (p : Z) : Query (BuilderErrorOr Buffer)
| ResolveFunctionPointer (p : Z) : Query (BuilderErrorOr Buffer)
| GetSymbolInfo (b : Buffer) : Query SymbolInfo
| GetSymbolPointer (name : string) : Query (BuilderErrorOr Buffer)
| GetTypeByMangledName (d : WritableData) (node : Z) (name : string) :
    Query (BuilderErrorOr Buffer)
| IsLoggingEnabled : Query bool
| Log (filename : string) (line : Z) (function : string) (message : string) : Query unit
| Load (addr : Z) : Query byte.

(** The operations that change memory or allocate.  [Store] is a write through
    the [ptr] of a writable data. *)
Inductive Update : Type -> Type :=
| Allocate (sz : Z) : Update WritableData
| Write (op : WriteOperation) (d : WritableData) (to : Z) (target : Buffer) : Update unit
| Store (addr : Z) (b : byte) : Update unit.

(** What the building half of the builder may ask of its [ReaderWriter]. *)
Inductive BuilderOp : Type -> Type :=
| Ask {X} (q : Query X) : BuilderOp X
| Do {X} (u : Update X) : BuilderOp X.

(** What the [Dumper] may ask: queries, and its print callback. *)
Inductive DumperOp : Type -> Type :=
| DumperAsk {X} (q : Query X) : DumperOp X
| Print (text : string) : DumperOp unit.

(** A routine of the builder: it returns, or performs an operation and goes
    on with the answer. *)
Inductive Routine (Op : Type -> Type) (A : Type) : Type :=
| Return (a : A)
| Perform {X} (op : Op X) (k : X -> Routine Op A).
Arguments Return {Op A} a.
Arguments Perform {Op A X} op k.

(** The result of [buildGenericValueMetadata]. *)
Record ConstructedMetadata : Type := mkConstructedMetadata {
  data : WritableData;
  offset : Z
}.

(** The member functions of [GenericMetadataBuilder<ReaderWriter>] and of its
    [Dumper] that the file calls; they are defined in the builder's header. *)
Class Builder : Type := {
  extraDataSize : Buffer -> Buffer -> Routine BuilderOp (BuilderErrorOr Z);
  buildGenericValueMetadata :
    Buffer -> Z -> Buffer -> Z -> Routine BuilderOp (BuilderErrorOr ConstructedMetadata);
  initializeGenericMetadata : WritableData -> Z -> Routine BuilderOp (BuilderErrorOr unit);
  Dumper_dumpMetadata : Buffer -> Routine DumperOp (BuilderErrorOr unit)
}.

Section Running.
Context `{Platform} `{Runtime}.

(** The in-process answer to a query. *)
Definition answer {X} (q : Query X) : M X :=
  match q in Query X return M X with
  | ResolvePointerUintptr p => m <- get_heap ;; ret (resolvePointer_uintptr m p)
  | ResolvePointer p => m <- get_heap ;; ret (resolvePointer m p)
  | ResolveFunctionPointer p => m <- get_heap ;; ret (resolveFunctionPointer m p)
  | GetSymbolInfo b => ret (getSymbolInfo b)
  | GetSymbolPointer name => getSymbolPointer name
  | GetTypeByMangledName d node name => getTypeByMangledName d node name
  | IsLoggingEnabled => ret isLoggingEnabled
  | Log filename line function message => log filename line function message
  | Load addr => m <- get_heap ;; ret (m addr)
  end.

(** The in-process effect of an update. *)
Definition perform {X} (u : Update X) : M X :=
  match u in Update X return M X with
  | Allocate sz => allocate sz
  | Write op d to target => write op d to target
  | Store addr b => fun w => Finished tt (set_heap (storeBytes (heap w) addr [b]) w)
  end.

Definition builder_op {X} (op : BuilderOp X) : M X :=
  match op in BuilderOp X return M X with
  | Ask q => answer q
  | Do u => perform u
  end.

End Running.

(** A routine run against the handler of its operations. *)
Fixpoint run {Op : Type -> Type} {A} (handler : forall X, Op X -> M X)
    (r : Routine Op A) : M A :=
  match r with
  | Return a => ret a
  | Perform op k => x <- handler _ op ;; run handler (k x)
  end.

End GenericMetadataBuilder.

(** ** The validation harness *)

Section Validation.
Import InProcessReaderWriter GenericMetadataBuilder.
Context `{Platform} `{Runtime} `{Builder}.

(** A builder over a fresh [InProcessReaderWriter]. *)
Definition run_builder {A} (r : Routine BuilderOp A) : M A :=
  run (@builder_op _ _) r.

(** [printToStderr(fmt, ...)] *)
Definition printToStderr (text : string) : M unit := fputs_stderr text.

Definition dumper_op {X} (op : DumperOp X) : M X :=
  match op in DumperOp X return M X with
  | DumperAsk q => answer q
  | Print text => printToStderr text
  end.

(** [allocateGenericValueMetadata(description, arguments, pattern,
    extraDataSize)]; [ERROR_CHECK] returns the error of its argument. *)
Definition allocateGenericValueMetadata (description arguments pattern extraDataSize : Z)
    : M (BuilderErrorOr Z) :=
  built <- run_builder
             (buildGenericValueMetadata (mkBuffer description) arguments
                (mkBuffer pattern) extraDataSize) ;;
  match built with
  | Error e => ret (Error e)
  | Value result =>
      let base := ptr (buffer (data result)) in
      ret (Value (wrap64 (base + offset result)))
  end.

(** [initializeGenericValueMetadata(metadata)] *)
Definition initializeGenericValueMetadata (metadata : Z) : M bool :=
  result <- run_builder
              (initializeGenericMetadata
                 (mkWritableData (mkBuffer (asFullMetadata metadata)) UINT_MAX) 0) ;;
  match getError result with
  | Some error =>
      fputs_stderr ("swift_initializeGenericValueMetadata failed: " ++ cStr error) ;;;
      ret false
  | None => ret true
  end.

(** [genericValueDataExtraSize(description, pattern)] *)
Definition genericValueDataExtraSize (description pattern : Z) : M (BuilderErrorOr Z) :=
  run_builder (extraDataSize (mkBuffer description) (mkBuffer pattern)).

(** [validationLog(isValidationFailure, fmt, ...)]; [message] is the text
    [vfprintf] produces. *)
Definition validationLog (isValidationFailure : bool) (message : string) : M unit :=
  if negb isValidationFailure
     && (SWIFT_DEBUG_VALIDATE_EXTERNAL_GENERIC_METADATA_BUILDER <? 2)
  then ret tt
  else
    fputs_stderr "GenericMetadataBuilder validation: " ;;;
    fputs_stderr message ;;;
    fputs_stderr LF.

(** [dumpMetadata(metadata)] *)
Definition dumpMetadata (metadata : Z) : M (BuilderErrorOr unit) :=
  record_call (CallDumpMetadata metadata) ;;;
  run (@dumper_op) (Dumper_dumpMetadata (mkBuffer metadata)).

(** [unwrapVWTField(field)]: the field itself, the opaque value of flags. *)
Definition unwrapVWTField (value : Z) : Z := value.

(** The test the macros of the first inclusion of [ValueWitness.def] expand
    to for one field: the fields differ. *)
Definition required_field_differs (a b : ValueWitnessTable) (e : WitnessEntry) : bool :=
  match e with
  | FUNCTION_VALUE_WITNESS id => negb (field a id =? field b id)
  | DATA_VALUE_WITNESS id => negb (unwrapVWTField (field a id) =? unwrapVWTField (field b id))
  end.

(** The same for the second inclusion, where only [VALUE_WITNESS] is
    defined. *)
Definition enum_field_differs (enumA enumB : ValueWitnessTable) (e : WitnessEntry) : bool :=
  negb (unwrapVWTField (field enumA (LOWER_ID_of e))
        =? unwrapVWTField (field enumB (LOWER_ID_of e))).

(** A run of [if (differs) return false;] statements: [true] when none
    returned. *)
Fixpoint none_differs (differs : WitnessEntry -> bool) (entries : list WitnessEntry) : bool :=
  match entries with
  | [] => true
  | e :: rest => if differs e then false else none_differs differs rest
  end.

(** [equalVWTs(a, b)] *)
Definition equalVWTs (a b : ValueWitnessTable) : bool :=
  if negb (none_differs (required_field_differs a b) REQUIRED_VALUE_WITNESSES) then false
  else
    let enumA := hasEnumWitnesses a in
    let enumB := hasEnumWitnesses b in
    if negb enumA && negb enumB then true
    else if enumA && enumB then
      if negb (none_differs (enum_field_differs a b) ENUM_VALUE_WITNESSES) then false
      else true
    else false.

(** [swift::fatalError(flags, message)] does not return. *)
Definition fatalError {A} (flags : Z) (message : string) : M A :=
  fun w => Terminated (FatalError flags message) (add_call (CallFatalError flags message) w).

(** The text of the success trace for a type name. *)
Definition validated_message (typeName : string) : string :=
  "Validated generic metadata builder on " ++ typeName.

(** Lines 421 to 450 of [validateExternalGenericMetadataBuilder]: the
    comparison of the new record with the original. *)
Definition compareMetadata (original newMetadata extraDataSize : Z) : M unit :=
  m <- get_heap ;;
  let origVWT := ValueWitnesses m (asFullMetadata original) in
  let newVWT := ValueWitnesses m (asFullMetadata newMetadata) in
  record_call (CallEqualVWTs origVWT newVWT) ;;;
  equal <- (if negb (equalVWTs (ValueWitnessTable_at m origVWT) (ValueWitnessTable_at m newVWT))
            then validationLog true "VWTs do not match" ;;; ret false
            else ret true) ;;
  let totalSize := wrap64 (sizeof_ValueMetadata + extraDataSize) in
  record_call (CallMemcmp original newMetadata totalSize) ;;;
  m <- get_heap ;;
  equal <- (if negb (memcmp m original newMetadata totalSize =? 0)
            then validationLog true "Metadatas do not match" ;;; ret false
            else ret equal) ;;
  (if negb equal then
     validationLog true "Error! Mismatch between new/old metadata builders!" ;;;
     validationLog true "Original metadata:" ;;;
     dumped <- dumpMetadata original ;;
     match getError dumped with
     | Some error => validationLog true ("error dumping original metadata: " ++ cStr error)
     | None => ret tt
     end ;;;
     validationLog true "New metadata builder:" ;;;
     dumped <- dumpMetadata newMetadata ;;
     match getError dumped with
     | Some error => validationLog true ("error dumping new metadata: " ++ cStr error)
     | None => ret tt
     end ;;;
     fatalError 0 ("Fatal error: mismatched metadata." ++ LF)
   else ret tt) ;;;
  m <- get_heap ;;
  let typeName := swift_getTypeName m original false in
  validationLog false (validated_message typeName).

(** [swift::validateExternalGenericMetadataBuilder(original, description,
    arguments)] *)
Definition validateExternalGenericMetadataBuilder (original description arguments : Z)
    : M unit :=
  m <- get_heap ;;
  if isa_ValueTypeDescriptor m description then
    let valueDescriptor := description in
    if isGeneric m valueDescriptor then
      let pattern := DefaultInstantiationPattern m valueDescriptor in
      extraDataSize <- genericValueDataExtraSize valueDescriptor pattern ;;
      match extraDataSize with
      | Error error =>
          validationLog false ("error getting extra data size: " ++ cStr error)
      | Value extra =>
          maybeNewMetadata <-
            allocateGenericValueMetadata valueDescriptor arguments pattern extra ;;
          match maybeNewMetadata with
          | Error error =>
              validationLog false ("error allocating metadata: " ++ cStr error)
          | Value newMetadata =>
              success <- initializeGenericValueMetadata newMetadata ;;
              if negb success then ret tt
              else compareMetadata original newMetadata extra
          end
      end
    else ret tt
  else ret tt.

End Validation.

(** ** A small process to run the code on *)

Module Example.
Import InProcessReaderWriter GenericMetadataBuilder.

(** [%p] as Darwin prints it. *)
Definition hex_pointer (p : Z) : string :=
  "0x" ++ HexadecimalString.NilZero.string_of_uint (N.to_hex_uint (Z.to_N p)).

(** A bump allocator for the metadata arena, starting at [0x10000]. *)
Definition bump (regions : list (Z * Z)) : Z :=
  fold_left (fun next r => next + 8 * ((snd r + 7) / 8)) regions 65536.

(** A platform with [dladdr] and [RTLD_SELF] that knows one image, loaded at
    [0x1000], and one symbol. *)
Definition platform (verbosity : Z) (ndebug : bool) : Platform := {|
  USE_DLADDR := true;
  HAVE_RTLD_SELF := true;
  NDEBUG := ndebug;
  dladdr := fun a =>
    if (4096 <=? a) && (a <? 8192) then
      Some (mkDl_info (Some "/usr/lib/swift/libswiftCore.dylib") 4096
              (if a <? 4352 then Some "swift_retain" else None) 4096)
    else if a =? 12288 then Some (mkDl_info None 12288 None 0)
    else None;
  dlsym := fun _ name => if String.eqb name "swift_retain" then 4096 else 0;
  printf_p := hex_pointer;
  SWIFT_DEBUG_VALIDATE_EXTERNAL_GENERIC_METADATA_BUILDER := verbosity;
  MetadataAllocator_Allocate := fun _ regions _ _ => bump regions
|}.

(** A platform without [dladdr]. *)
Definition bare_platform : Platform := {|
  USE_DLADDR := false;
  HAVE_RTLD_SELF := false;
  NDEBUG := false;
  dladdr := fun _ => None;
  dlsym := fun _ _ => 0;
  printf_p := hex_pointer;
  SWIFT_DEBUG_VALIDATE_EXTERNAL_GENERIC_METADATA_BUILDER := 0;
  MetadataAllocator_Allocate := fun _ regions _ _ => bump regions
|}.

Definition required_witnesses : list WitnessEntry :=
  [ FUNCTION_VALUE_WITNESS "initializeBufferWithCopyOfBuffer";
    FUNCTION_VALUE_WITNESS "destroy";
    FUNCTION_VALUE_WITNESS "initializeWithCopy";
    FUNCTION_VALUE_WITNESS "assignWithCopy";
    FUNCTION_VALUE_WITNESS "initializeWithTake";
    FUNCTION_VALUE_WITNESS "assignWithTake";
    FUNCTION_VALUE_WITNESS "getEnumTagSinglePayload";
    FUNCTION_VALUE_WITNESS "storeEnumTagSinglePayload";
    DATA_VALUE_WITNESS "size";
    DATA_VALUE_WITNESS "stride";
    DATA_VALUE_WITNESS "flags";
    DATA_VALUE_WITNESS "extraInhabitantCount" ].

Definition enum_witnesses : list WitnessEntry :=
  [ FUNCTION_VALUE_WITNESS "getEnumTag";
    FUNCTION_VALUE_WITNESS "destructiveProjectEnumData";
    FUNCTION_VALUE_WITNESS "destructiveInjectEnumTag" ].

(** The slot of a field in the example's table layout, one pointer-sized slot
    per field. *)
Fixpoint slot_of (id : string) (entries : list WitnessEntry) (k : Z) : Z :=
  match entries with
  | [] => k
  | e :: rest => if String.eqb (LOWER_ID_of e) id then k else slot_of id rest (k + 1)
  end.

Definition table_at (m : Memory) (a : Z) : ValueWitnessTable :=
  let slot id := slot_of id (required_witnesses ++ enum_witnesses) 0 in
  {| field := fun id => loadPointer m (a + 8 * slot id);
     hasEnumWitnesses := Z.testbit (loadPointer m (a + 8 * slot "flags")) 21 |}.

(** A runtime in which the descriptor at 100 is a generic struct, the one at
    200 a struct that is not generic, and nothing else is a value type; the
    header of a record is the 16 bytes before it, the table pointer in the
    last 8. *)
Definition runtime : Runtime := {|
  isa_ValueTypeDescriptor := fun _ d => (d =? 100) || (d =? 200);
  isGeneric := fun _ d => d =? 100;
  DefaultInstantiationPattern := fun _ _ => 500;
  sizeof_ValueMetadata := 16;
  asFullMetadata := fun metadata => metadata - 16;
  static_cast_Metadata := fun full => full + 16;
  ValueWitnesses := fun m full => loadPointer m (full + 8);
  ValueWitnessTable_at := table_at;
  REQUIRED_VALUE_WITNESSES := required_witnesses;
  ENUM_VALUE_WITNESSES := enum_witnesses;
  swift_getTypeName := fun _ _ _ => "main.Box<Swift.Int>";
  swift_getTypeByMangledName := fun _ metadata _ =>
    ([QueryMetadata 0 0 metadata], Value metadata)
|}.

(** Two tables that agree, and one whose [destroy] differs. *)
Definition table_a : ValueWitnessTable :=
  mkValueWitnessTable (fun id => if String.eqb id "size" then 8 else 4096) false.

Definition table_b : ValueWitnessTable :=
  mkValueWitnessTable
    (fun id => if String.eqb id "size" then 8
               else if String.eqb id "getEnumTag" then 7 else 4096) false.

Definition table_c : ValueWitnessTable :=
  mkValueWitnessTable
    (fun id => if String.eqb id "size" then 8
               else if String.eqb id "destroy" then 4100 else 4096) false.

(** What the example builders do on each entry point. *)
Inductive Behaviour : Type :=
| Faithful
| FailsSize
| FailsBuild
| FailsInitialize
| Corrupts.

(** A builder that needs 8 extra bytes, allocates header, record and extra
    data in one region, logs, and fills in nothing (the arena is zeroed, as
    the original record at 1000 is); [Corrupts] sets one byte of the record;
    the other behaviours fail at one entry point. *)
Definition builder (how : Behaviour) : Builder := {|
  extraDataSize := fun _ _ =>
    match how with
    | FailsSize => Return (Error (mkBuilderError "no pattern"))
    | _ => Perform (Ask (Log "GenericMetadataBuilder.h" 1 "extraDataSize" "8 bytes"))
             (fun _ => Return (Value 8))
    end;
  buildGenericValueMetadata := fun _ _ _ extra =>
    match how with
    | FailsBuild => Return (Error (mkBuilderError "no room"))
    | _ =>
        Perform (Do (Allocate (16 + 16 + extra))) (fun d =>
        Perform (Do (Write WritePointer_StoredPointer d (base d + 8) (mkBuffer 0))) (fun _ =>
        match how with
        | Corrupts =>
            Perform (Do (Store (base d + 16 + 3) (byte.of_Z 1))) (fun _ =>
            Return (Value (mkConstructedMetadata d 16)))
        | _ => Return (Value (mkConstructedMetadata d 16))
        end))
    end;
  initializeGenericMetadata := fun _ _ =>
    match how with
    | FailsInitialize => Return (Error (mkBuilderError "missing field type"))
    | _ => Return (Value tt)
    end;
  Dumper_dumpMetadata := fun b =>
    Perform (Print ("Metadata at " ++ hex_pointer (ptr b) ++ LF)) (fun _ => Return (Value tt))
|}.

(** The process before the call: zeroed memory, nothing written, allocated or
    called. *)
Definition start : World := mkWorld (fun _ => byte.of_Z 0) [] [] [].

End Example.

(** ** Vocabulary of the statements *)

(** The characters of [s] include [c]. *)
Fixpoint occurs (c : ascii) (s : string) : bool :=
  match s with
  | EmptyString => false
  | String a rest => Ascii.eqb a c || occurs c rest
  end.

(** [name] is the last component of the path [path]: the path itself when it
    has no slash, otherwise what follows its last slash. *)
Definition last_component (path name : string) : Prop :=
  occurs SLASH name = false
  /\ (path = name \/ exists directory, path = directory ++ String SLASH name).

(** Two worlds that differ at most in what was written to [stderr]. *)
Definition only_wrote (w w' : World) : Prop :=
  heap w' = heap w /\ allocated w' = allocated w /\ calls w' = calls w
  /\ exists text, stderr w' = (stderr w ++ text)%list.

(** Two tables with the same required fields and the same kind. *)
Definition same_required `{Runtime} (a a' : ValueWitnessTable) : Prop :=
  hasEnumWitnesses a' = hasEnumWitnesses a
  /\ Forall (fun e => field a' (LOWER_ID_of e) = field a (LOWER_ID_of e))
       REQUIRED_VALUE_WITNESSES.

(** What a run of the builder may do to the history and to [stderr]: no call
    of the harness, text only appended, and none below verbosity 2. *)
Definition backend_effect `{Platform} (w w' : World) : Prop :=
  calls w' = calls w
  /\ (exists text, stderr w' = (stderr w ++ text)%list)
  /\ (SWIFT_DEBUG_VALIDATE_EXTERNAL_GENERIC_METADATA_BUILDER < 2 -> stderr w' = stderr w).

(** The test of line 425: the tables of the two records are equal. *)
Definition tables_match `{Runtime} (original newMetadata : Z) (m : Memory) : bool :=
  equalVWTs (ValueWitnessTable_at m (ValueWitnesses m (asFullMetadata original)))
            (ValueWitnessTable_at m (ValueWitnesses m (asFullMetadata newMetadata))).

(** The test of line 430: [memcmp] answers zero. *)
Definition bytes_match `{Runtime} (original newMetadata extraDataSize : Z) (m : Memory) : bool :=
  memcmp m original newMetadata (wrap64 (sizeof_ValueMetadata + extraDataSize)) =? 0.

(** The three writes of [validationLog] for a message. *)
Definition validation_lines (message : string) : list string :=
  ["GenericMetadataBuilder validation: "; message; LF].

(** The world after [text] was written to [stderr]. *)
Definition wrote (text : list string) (w : World) : World :=
  mkWorld (heap w) (stderr w ++ text) (allocated w) (calls w).

(** What [validationLog] writes for a message at the current verbosity. *)
Definition validationLog_output `{Platform} (isValidationFailure : bool) (message : string)
    : list string :=
  if negb isValidationFailure
     && (SWIFT_DEBUG_VALIDATE_EXTERNAL_GENERIC_METADATA_BUILDER <? 2)
  then []
  else validation_lines message.

(** The history of a comparison that ends in the fatal error. *)
Definition mismatch_calls `{Runtime} (original newMetadata extraDataSize : Z) (m : Memory)
    : list Call :=
  [ CallEqualVWTs (ValueWitnesses m (asFullMetadata original))
                  (ValueWitnesses m (asFullMetadata newMetadata));
    CallMemcmp original newMetadata (wrap64 (sizeof_ValueMetadata + extraDataSize));
    CallDumpMetadata original;
    CallDumpMetadata newMetadata;
    CallFatalError 0 ("Fatal error: mismatched metadata." ++ LF) ].

(** The history of a comparison that passes. *)
Definition match_calls `{Runtime} (original newMetadata extraDataSize : Z) (m : Memory)
    : list Call :=
  [ CallEqualVWTs (ValueWitnesses m (asFullMetadata original))
                  (ValueWitnesses m (asFullMetadata newMetadata));
    CallMemcmp original newMetadata (wrap64 (sizeof_ValueMetadata + extraDataSize)) ].

(** A computation that makes no call of the harness and ends the process, if
    at all, through a failed assertion. *)
Definition keeps_history {A} (c : M A) (w : World) : Prop :=
  calls (final_world (c w)) = calls w
  /\ (forall why w', c w = Terminated why w' -> why = AssertionFailure).

(** [s] is [l] with some entries left out, the order kept. *)
Inductive subsequence {T : Type} : list T -> list T -> Prop :=
| subsequence_nil : forall l, subsequence [] l
| subsequence_keep : forall x s l, subsequence s l -> subsequence (x :: s) (x :: l)
| subsequence_skip : forall x s l, subsequence s l -> subsequence s (x :: l).

(** The texts a routine of the dumper hands to its print callback, in order,
    when it runs in process from [w]. *)
Fixpoint printed `{Platform} `{Runtime} {A}
    (r : GenericMetadataBuilder.Routine GenericMetadataBuilder.DumperOp A) (w : World)
    : list string :=
  match r with
  | GenericMetadataBuilder.Return _ => []
  | GenericMetadataBuilder.Perform op k =>
      match dumper_op op w with
      | Finished x w' =>
          (match op with
           | GenericMetadataBuilder.Print text => [text]
           | GenericMetadataBuilder.DumperAsk _ => []
           end ++ printed (k x) w')%list
      | Terminated _ _ => []
      end
  end.

(** [text] is what the dump of [metadata], started in [w], added to [stderr]:
    it holds every text the dumper printed, in order (between them, at
    verbosity 2 and above, the trace lines of the dumper's lookups), and
    below verbosity 2 it is exactly what the dumper printed. *)
Definition dump_written `{Platform} `{Runtime} `{GenericMetadataBuilder.Builder}
    (metadata : Z) (w : World) (text : list string) : Prop :=
  subsequence
    (printed (GenericMetadataBuilder.Dumper_dumpMetadata
                (InProcessReaderWriter.mkBuffer metadata)) w) text
  /\ (SWIFT_DEBUG_VALIDATE_EXTERNAL_GENERIC_METADATA_BUILDER < 2 ->
      text = printed (GenericMetadataBuilder.Dumper_dumpMetadata
                        (InProcessReaderWriter.mkBuffer metadata)) w).

(** The world after [text] was written to [stderr] and [made] was added to
    the history. *)
Definition extended (text : list string) (made : list Call) (w : World) : World :=
  mkWorld (heap w) (stderr w ++ text) (allocated w) (calls w ++ made).

(** * Properties *)

Section MemoryFacts.


End MemoryFacts.

Section WriteAndResolve.
Import InProcessReaderWriter.
Context `{Platform}.





(** Every write operation is the check followed by the store of the target's
    pointer. *)
Lemma write_unfold (op : WriteOperation) (d : WritableData) (t : Z) (target : Buffer) :
  write op d t target = (checkPtr d t ;;; assign t (ptr target)).
Proof. destruct op; reflexivity. Qed.

Lemma write_checked (op : WriteOperation) (d : WritableData) (t : Z) (target : Buffer)
    (w : World) :
  checkPtr_condition d t = true ->
  write op d t target w = Finished tt (set_heap (storePointer (heap w) t (ptr target)) w).
Proof.
  intros Hc. rewrite write_unfold.
  unfold bind, checkPtr, assert, assign. rewrite Hc.
  destruct NDEBUG; reflexivity.
Qed.

Lemma write_refused (op : WriteOperation) (d : WritableData) (t : Z) (target : Buffer)
    (w : World) :
  NDEBUG = false ->
  checkPtr_condition d t = false ->
  write op d t target w = Terminated AssertionFailure w.
Proof.
  intros Hdebug Hc. rewrite write_unfold.
  unfold bind, checkPtr, assert. rewrite Hdebug, Hc. reflexivity.
Qed.



End WriteAndResolve.



Section Strings.

Lemma strrchr_none (c : ascii) (s : string) :
  strrchr s c = None -> occurs c s = false.
Proof.
  induction s as [|a rest IH]; simpl; intros Hnone.
  - reflexivity.
  - destruct (strrchr rest c); [discriminate|].
    destruct (Ascii.eqb a c); [discriminate|].
    simpl. apply IH. reflexivity.
Qed.

Lemma strrchr_some (c : ascii) (s : string) :
  forall r, strrchr s c = Some r ->
            exists before after,
              r = String c after /\ s = before ++ String c after /\ occurs c after = false.
Proof.
  induction s as [|a rest IH]; simpl; intros r Hsome.
  - discriminate.
  - destruct (strrchr rest c) as [r'|] eqn:Hrest.
    + injection Hsome as <-.
      destruct (IH r' eq_refl) as (before & after & Hr & Hs & Hocc).
      exists (String a before), after. subst. auto.
    + destruct (Ascii.eqb_spec a c) as [->|]; [|discriminate].
      injection Hsome as <-.
      exists EmptyString, rest. split; [reflexivity|]. split; [reflexivity|].
      apply strrchr_none, Hrest.
Qed.

End Strings.

Section Symbols.
Import InProcessReaderWriter.
Context `{Platform}.

(** C6: [getSymbolInfo] is a total function to [SymbolInfo]: it has no error
    result.  Without [dladdr], or when [dladdr] finds nothing, it answers
    ["<unknown>"], ["<unknown>"] and offset 0; when [dladdr] answers, a missing
    symbol name and a missing file name are each replaced by ["<unknown>"],
    a symbol name is passed on, a file name is cut to its last component, and
    the offset is the distance from the image's base. *)
Theorem getSymbolInfo_never_fails (b : Buffer) :
  (USE_DLADDR = false \/ dladdr (ptr b) = None ->
   getSymbolInfo b = mkSymbolInfo "<unknown>" "<unknown>" 0)
  /\ (forall info,
        USE_DLADDR = true -> dladdr (ptr b) = Some info ->
        (dli_sname info = None -> symbolName (getSymbolInfo b) = "<unknown>")
        /\ (forall name, dli_sname info = Some name -> symbolName (getSymbolInfo b) = name)
        /\ (dli_fname info = None -> libraryName (getSymbolInfo b) = "<unknown>")
        /\ (forall path, dli_fname info = Some path ->
                         last_component path (libraryName (getSymbolInfo b)))
        /\ pointerOffset (getSymbolInfo b) = wrap64 (getAddress b - dli_fbase info)).
Proof.
  unfold getSymbolInfo. split.
  - intros [Hoff|Hnone].
    + rewrite Hoff. reflexivity.
    + rewrite Hnone. destruct USE_DLADDR; reflexivity.
  - intros info Hon Hsome. rewrite Hon, Hsome. simpl.
    split; [intros ->; reflexivity|].
    split; [intros name ->; reflexivity|].
    split; [intros ->; reflexivity|].
    split; [|reflexivity].
    intros path ->. unfold last_component.
    destruct (strrchr path SLASH) as [slash|] eqn:Hslash.
    + destruct (strrchr_some _ _ _ Hslash) as (before & after & -> & -> & Hocc).
      simpl. split; [exact Hocc|]. right. exists before. reflexivity.
    + split; [apply strrchr_none, Hslash|]. left. reflexivity.
Qed.

Lemma log_only_writes (filename : string) (line : Z) (function message : string) (w : World) :
  exists w', log filename line function message w = Finished tt w' /\ only_wrote w w'.
Proof.
  unfold log.
  destruct (SWIFT_DEBUG_VALIDATE_EXTERNAL_GENERIC_METADATA_BUILDER <? 2).
  - exists w. split; [reflexivity|]. repeat split. exists []. symmetry. apply app_nil_r.
  - eexists. split; [reflexivity|]. repeat split. simpl.
    rewrite <- !app_assoc. eexists. reflexivity.
Qed.

Lemma log_silent (filename : string) (line : Z) (function message : string) (w : World) :
  SWIFT_DEBUG_VALIDATE_EXTERNAL_GENERIC_METADATA_BUILDER < 2 ->
  log filename line function message w = Finished tt w.
Proof.
  intros Hlow. unfold log.
  destruct (Z.ltb_spec SWIFT_DEBUG_VALIDATE_EXTERNAL_GENERIC_METADATA_BUILDER 2); [reflexivity|lia].
Qed.

(** C7: [getSymbolPointer] answers an error when the file is built without
    [dlsym] and when [dlsym] finds no address for the name; otherwise it
    answers a buffer at the address found, which is not null; a null buffer
    is never its value. *)
Theorem getSymbolPointer_outcomes (name : string) (w : World) :
  (USE_DLADDR = false ->
   getSymbolPointer name w
   = Finished (Error (mkBuilderError "getSymbolPointer is not implemented on this platform")) w)
  /\ (USE_DLADDR = true ->
      (if HAVE_RTLD_SELF then dlsym RTLD_SELF name else dlsym RTLD_DEFAULT name) = 0 ->
      exists w',
        getSymbolPointer name w
        = Finished (Error (mkBuilderError ("dlsym could not find symbol '" ++ name ++ "'"))) w'
        /\ only_wrote w w')
  /\ (USE_DLADDR = true ->
      (if HAVE_RTLD_SELF then dlsym RTLD_SELF name else dlsym RTLD_DEFAULT name) <> 0 ->
      exists w',
        getSymbolPointer name w
        = Finished (Value (mkBuffer (if HAVE_RTLD_SELF then dlsym RTLD_SELF name
                                     else dlsym RTLD_DEFAULT name))) w'
        /\ only_wrote w w')
  /\ (forall found w', getSymbolPointer name w = Finished (Value found) w' ->
                       isNull found = false).
Proof.
  unfold getSymbolPointer, LOG.
  set (p := if HAVE_RTLD_SELF then dlsym RTLD_SELF name else dlsym RTLD_DEFAULT name).
  split; [intros ->; reflexivity|].
  split; [|split].
  - intros -> Hp. unfold bind.
    destruct (log_only_writes "GenericMetadataBuilder.cpp" 222 "getSymbolPointer"
                ("getSymbolPointer(" ++ DQUOTE ++ name ++ DQUOTE ++ ") -> " ++ printf_p p) w)
      as (w' & -> & Hw).
    rewrite Hp. simpl. exists w'. split; [reflexivity|exact Hw].
  - intros -> Hp. unfold bind.
    destruct (log_only_writes "GenericMetadataBuilder.cpp" 222 "getSymbolPointer"
                ("getSymbolPointer(" ++ DQUOTE ++ name ++ DQUOTE ++ ") -> " ++ printf_p p) w)
      as (w' & -> & Hw).
    destruct (Z.eqb_spec p 0); [contradiction|].
    exists w'. split; [reflexivity|exact Hw].
  - intros found w'. destruct USE_DLADDR; [|discriminate].
    unfold bind.
    destruct (log_only_writes "GenericMetadataBuilder.cpp" 222 "getSymbolPointer"
                ("getSymbolPointer(" ++ DQUOTE ++ name ++ DQUOTE ++ ") -> " ++ printf_p p) w)
      as (w1 & -> & _).
    destruct (Z.eqb_spec p 0) as [|Hp]; [discriminate|].
    unfold ret. intros Heq. injection Heq as <- _.
    unfold isNull. simpl. apply Z.eqb_neq, Hp.
Qed.

End Symbols.

Section Frames.
Import InProcessReaderWriter GenericMetadataBuilder.
Context `{Platform} `{Runtime} `{Builder}.

Lemma only_wrote_refl (w : World) : only_wrote w w.
Proof. repeat split. exists []. symmetry. apply app_nil_r. Qed.

Lemma only_wrote_trans (w1 w2 w3 : World) :
  only_wrote w1 w2 -> only_wrote w2 w3 -> only_wrote w1 w3.
Proof.
  intros (Hh1 & Ha1 & Hc1 & t1 & Hs1) (Hh2 & Ha2 & Hc2 & t2 & Hs2).
  repeat split; try congruence.
  exists (t1 ++ t2)%list. rewrite Hs2, Hs1. symmetry. apply app_assoc.
Qed.

Lemma backend_effect_refl (w : World) : backend_effect w w.
Proof. repeat split. exists []. symmetry. apply app_nil_r. Qed.

Lemma backend_effect_trans (w1 w2 w3 : World) :
  backend_effect w1 w2 -> backend_effect w2 w3 -> backend_effect w1 w3.
Proof.
  intros (Hc1 & (t1 & Hs1) & Hq1) (Hc2 & (t2 & Hs2) & Hq2).
  split; [congruence|]. split.
  - exists (t1 ++ t2)%list. rewrite Hs2, Hs1. symmetry. apply app_assoc.
  - intros Hlow. rewrite Hq2, Hq1; auto.
Qed.

(** The equations of sequencing. *)
Lemma bind_finished {A B} (c : M A) (k : A -> M B) (w w' : World) (a : A) :
  c w = Finished a w' -> bind c k w = k a w'.
Proof. intros Hc. unfold bind. rewrite Hc. reflexivity. Qed.

Lemma bind_terminated {A B} (c : M A) (k : A -> M B) (w w' : World) (why : Abort) :
  c w = Terminated why w' -> bind c k w = Terminated why w'.
Proof. intros Hc. unfold bind. rewrite Hc. reflexivity. Qed.

Lemma bind_assoc {A B C} (c : M A) (k1 : A -> M B) (k2 : B -> M C) (w : World) :
  bind (bind c k1) k2 w = bind c (fun a => bind (k1 a) k2) w.
Proof. unfold bind. destruct (c w); reflexivity. Qed.

(** Logging returns, and below verbosity 2 it does nothing. *)
Lemma log_substitutions_only_writes (qs : list SubstitutionQuery) :
  forall w, exists w',
    log_substitutions qs w = Finished tt w' /\ only_wrote w w'
    /\ (SWIFT_DEBUG_VALIDATE_EXTERNAL_GENERIC_METADATA_BUILDER < 2 -> w' = w).
Proof.
  induction qs as [|q rest IH]; intros w; simpl.
  - exists w. split; [reflexivity|]. split; [apply only_wrote_refl|reflexivity].
  - assert (Hq : exists w1, log_substitution q w = Finished tt w1 /\ only_wrote w w1
                            /\ (SWIFT_DEBUG_VALIDATE_EXTERNAL_GENERIC_METADATA_BUILDER < 2
                                -> w1 = w)).
    { destruct q; simpl; unfold LOG;
        match goal with
        | |- context [log ?f ?l ?fn ?msg w] =>
            destruct (log_only_writes f l fn msg w) as (w1 & Hrun & Hw);
            exists w1; split; [exact Hrun|]; split; [exact Hw|];
            intros Hlow; rewrite (log_silent f l fn msg w Hlow) in Hrun;
            injection Hrun as <-; reflexivity
        end. }
    destruct Hq as (w1 & Hrun1 & Hw1 & Hq1).
    destruct (IH w1) as (w2 & Hrun2 & Hw2 & Hq2).
    exists w2. rewrite (bind_finished _ _ _ _ _ Hrun1).
    split; [exact Hrun2|]. split; [eapply only_wrote_trans; eassumption|].
    intros Hlow. rewrite Hq2, Hq1; auto.
Qed.

(** A query returns, changes nothing but [stderr], and is silent below
    verbosity 2. *)
Lemma answer_returns {X} (q : Query X) (w : World) :
  exists x w',
    answer q w = Finished x w' /\ only_wrote w w'
    /\ (SWIFT_DEBUG_VALIDATE_EXTERNAL_GENERIC_METADATA_BUILDER < 2 -> w' = w).
Proof.
  destruct q; simpl;
    try (eexists; exists w; split; [reflexivity|];
         split; [apply only_wrote_refl|reflexivity]).
  - (* getSymbolPointer *)
    unfold getSymbolPointer, LOG. destruct USE_DLADDR.
    + match goal with
      | |- context [log ?f ?l ?fn ?msg] =>
          destruct (log_only_writes f l fn msg w) as (w1 & Hrun & Hw);
          pose proof (log_silent f l fn msg w) as Hsilent
      end.
      rewrite (bind_finished _ _ _ _ _ Hrun).
      assert (Hquiet : SWIFT_DEBUG_VALIDATE_EXTERNAL_GENERIC_METADATA_BUILDER < 2 -> w1 = w).
      { intros Hlow. rewrite (Hsilent Hlow) in Hrun. injection Hrun as <-. reflexivity. }
      match goal with |- context [if ?c then _ else _] => destruct c end;
        eexists; exists w1; (split; [reflexivity|]); split; assumption.
    + eexists; exists w. split; [reflexivity|].
      split; [apply only_wrote_refl|reflexivity].
  - (* getTypeByMangledName *)
    unfold getTypeByMangledName, get_heap. unfold bind at 1.
    destruct (log_substitutions_only_writes
                (fst (swift_getTypeByMangledName (heap w) (static_cast_Metadata (ptr (buffer d))) name)) w)
      as (w1 & Hrun & Hw & Hq).
    rewrite (bind_finished _ _ _ _ _ Hrun).
    destruct (snd (swift_getTypeByMangledName (heap w) (static_cast_Metadata (ptr (buffer d))) name));
      eexists; exists w1; (split; [reflexivity|]); split; assumption.
  - (* log *)
    destruct (log_only_writes filename line function message w) as (w1 & Hrun & Hw).
    exists tt, w1. split; [exact Hrun|]. split; [exact Hw|].
    intros Hlow. rewrite (log_silent _ _ _ _ w Hlow) in Hrun.
    injection Hrun as <-. reflexivity.
Qed.

Lemma only_wrote_backend_effect (w w' : World) :
  only_wrote w w' ->
  (SWIFT_DEBUG_VALIDATE_EXTERNAL_GENERIC_METADATA_BUILDER < 2 -> w' = w) ->
  backend_effect w w'.
Proof.
  intros (_ & _ & Hc & Ht) Hq. split; [exact Hc|]. split; [exact Ht|].
  intros Hlow. rewrite (Hq Hlow). reflexivity.
Qed.

(** An update writes nothing and calls nothing, whether it returns or the
    assertion fails. *)
Lemma perform_effect {X} (u : Update X) (w : World) :
  backend_effect w (final_world (perform u w))
  /\ (forall why w', perform u w = Terminated why w' -> why = AssertionFailure).
Proof.
  destruct u; simpl.
  - split; [|discriminate]. repeat split. exists []. symmetry. apply app_nil_r.
  - rewrite write_unfold. unfold bind, checkPtr, assert, assign.
    destruct NDEBUG; [|destruct (checkPtr_condition d to)]; simpl;
      (split; [apply backend_effect_refl || (repeat split; exists []; symmetry; apply app_nil_r)|]);
      intros why w' Heq; try discriminate; injection Heq as <- _; reflexivity.
  - split; [|discriminate]. repeat split. exists []. symmetry. apply app_nil_r.
Qed.

Lemma builder_op_effect {X} (op : BuilderOp X) (w : World) :
  backend_effect w (final_world (builder_op op w))
  /\ (forall why w', builder_op op w = Terminated why w' -> why = AssertionFailure).
Proof.
  destruct op as [X q|X u]; simpl.
  - destruct (answer_returns q w) as (x & w' & Hrun & Hw & Hq).
    rewrite Hrun. simpl. split; [apply only_wrote_backend_effect; assumption|discriminate].
  - apply perform_effect.
Qed.

(** A routine of the builder, run in process, makes no call of the harness,
    only appends to [stderr], writes nothing below verbosity 2, and ends the
    process only through a failed assertion. *)
Lemma run_builder_effect {A} (r : Routine BuilderOp A) :
  forall w,
    backend_effect w (final_world (run_builder r w))
    /\ (forall why w', run_builder r w = Terminated why w' -> why = AssertionFailure).
Proof.
  unfold run_builder.
  induction r as [a|X op k IH]; intros w; simpl.
  - split; [apply backend_effect_refl|discriminate].
  - destruct (builder_op_effect op w) as (Hop & Hstop).
    unfold bind. destruct (builder_op op w) as [x w1|why w1] eqn:Hrun; simpl in *.
    + destruct (IH x w1) as (Hk & Hkstop). split.
      * eapply backend_effect_trans; eassumption.
      * exact Hkstop.
    + split; [exact Hop|].
      intros why' w' Heq. injection Heq as <- _. eapply Hstop. reflexivity.
Qed.

(** The dumper returns, and changes nothing but [stderr]. *)
Lemma run_dumper_returns {A} (r : Routine DumperOp A) :
  forall w, exists a w', run (@dumper_op _ _) r w = Finished a w' /\ only_wrote w w'.
Proof.
  induction r as [a|X op k IH]; intros w; simpl.
  - exists a, w. split; [reflexivity|apply only_wrote_refl].
  - assert (Hop : exists x w1, dumper_op op w = Finished x w1 /\ only_wrote w w1).
    { destruct op as [X q|text]; simpl.
      - destruct (answer_returns q w) as (x & w1 & Hrun & Hw & _). eauto.
      - exists tt, (add_stderr text w). split; [reflexivity|].
        repeat split. simpl. eexists. reflexivity. }
    destruct Hop as (x & w1 & Hrun & Hw1).
    destruct (IH x w1) as (a & w2 & Hrun2 & Hw2).
    exists a, w2. rewrite (bind_finished _ _ _ _ _ Hrun).
    split; [exact Hrun2|eapply only_wrote_trans; eassumption].
Qed.

End Frames.

Section Comparison.
Import InProcessReaderWriter GenericMetadataBuilder.
Context `{Platform} `{Runtime} `{Builder}.

Lemma wrote_nil (w : World) : wrote [] w = w.
Proof. destruct w. unfold wrote. simpl. rewrite app_nil_r. reflexivity. Qed.

Lemma wrote_wrote (text1 text2 : list string) (w : World) :
  wrote text2 (wrote text1 w) = wrote (text1 ++ text2) w.
Proof. unfold wrote. cbn [heap stderr allocated calls]. rewrite app_assoc. reflexivity. Qed.

Lemma only_wrote_wrote (w w' : World) :
  only_wrote w w' -> exists text, w' = wrote text w.
Proof.
  intros (Hh & Ha & Hc & text & Hs). exists text.
  destruct w, w'. unfold wrote. simpl in *. congruence.
Qed.

Lemma validationLog_runs (isValidationFailure : bool) (message : string) (w : World) :
  validationLog isValidationFailure message w
  = Finished tt (wrote (validationLog_output isValidationFailure message) w).
Proof.
  unfold validationLog, validationLog_output.
  destruct (negb isValidationFailure
            && (SWIFT_DEBUG_VALIDATE_EXTERNAL_GENERIC_METADATA_BUILDER <? 2)).
  - rewrite wrote_nil. reflexivity.
  - unfold bind, fputs_stderr, add_stderr, wrote, validation_lines. simpl.
    rewrite <- !app_assoc. reflexivity.
Qed.

Lemma dumpMetadata_runs (metadata : Z) (w : World) :
  exists dumped text,
    dumpMetadata metadata w
    = Finished dumped (wrote text (add_call (CallDumpMetadata metadata) w)).
Proof.
  unfold dumpMetadata, bind, record_call.
  destruct (run_dumper_returns (Dumper_dumpMetadata (mkBuffer metadata))
              (add_call (CallDumpMetadata metadata) w)) as (dumped & w' & Hrun & Hw).
  destruct (only_wrote_wrote _ _ Hw) as (text & ->).
  exists dumped, text. exact Hrun.
Qed.

(** One statement of the harness, executed. *)
Ltac step :=
  match goal with
  | |- context [bind get_heap ?k ?w] =>
      change (bind get_heap k w) with (k (heap w) w); cbv beta
  | |- context [bind (record_call ?c) ?k ?w] =>
      change (bind (record_call c) k w) with (k tt (add_call c w)); cbv beta
  | |- context [bind (ret ?a) ?k ?w] =>
      change (bind (ret a) k w) with (k a w); cbv beta
  | |- context [bind (validationLog ?b ?m) ?k ?w] =>
      rewrite (bind_finished (validationLog b m) k w _ tt (validationLog_runs b m w));
      cbv beta
  | |- context [bind (bind ?c ?k1) ?k2 ?w] =>
      rewrite (bind_assoc c k1 k2 w)
  | |- context [bind (dumpMetadata ?x) ?k ?w] =>
      let dumped := fresh "dumped" in
      let text := fresh "text" in
      let Hrun := fresh "Hrun" in
      destruct (dumpMetadata_runs x w) as (dumped & text & Hrun);
      rewrite (bind_finished (dumpMetadata x) k w _ dumped Hrun);
      clear Hrun; destruct dumped; cbn [getError]; cbv beta
  end.

(** When both tests pass, the comparison is the two tests and the success
    trace. *)
Lemma compareMetadata_pass (original newMetadata extra : Z) (w : World) :
  tables_match original newMetadata (heap w) = true ->
  bytes_match original newMetadata extra (heap w) = true ->
  compareMetadata original newMetadata extra w
  = Finished tt
      (wrote (validationLog_output false
                (validated_message (swift_getTypeName (heap w) original false)))
         (add_call (CallMemcmp original newMetadata (wrap64 (sizeof_ValueMetadata + extra)))
            (add_call (CallEqualVWTs (ValueWitnesses (heap w) (asFullMetadata original))
                                     (ValueWitnesses (heap w) (asFullMetadata newMetadata)))
               w))).
Proof.
  unfold tables_match, bytes_match. intros Htables Hbytes.
  unfold compareMetadata. cbv zeta.
  step. step. rewrite Htables. cbn [negb]. step. step. step.
  cbn [heap add_call]. rewrite Hbytes. cbn [negb]. step. cbn [negb]. step. step.
  cbn [heap add_call]. apply validationLog_runs.
Qed.

(** When a test fails, the comparison dumps both records and ends in the
    fatal error; the mismatch is announced whatever the verbosity. *)
Lemma compareMetadata_fail (original newMetadata extra : Z) (w : World) :
  tables_match original newMetadata (heap w) = false
  \/ bytes_match original newMetadata extra (heap w) = false ->
  exists w' text,
    compareMetadata original newMetadata extra w
    = Terminated (FatalError 0 ("Fatal error: mismatched metadata." ++ LF)) w'
    /\ calls w' = (calls w ++ mismatch_calls original newMetadata extra (heap w))%list
    /\ stderr w' = (stderr w ++ text)%list
    /\ In "Error! Mismatch between new/old metadata builders!" text
    /\ heap w' = heap w /\ allocated w' = allocated w.
Proof.
  unfold tables_match, bytes_match, mismatch_calls. intros Hfails.
  unfold compareMetadata. cbv zeta.
  step. step.
  destruct (equalVWTs _ _) eqn:Htables; cbn [negb];
    repeat step; cbn [heap add_call wrote];
    (destruct (memcmp _ _ _ _ =? 0) eqn:Hbytes; cbn [negb];
     [ try (destruct Hfails; discriminate) | ]);
    repeat step; cbn [negb]; repeat step;
    unfold fatalError;
    (eexists; eexists; split; [reflexivity|]);
    cbn [calls stderr heap allocated add_call wrote];
    rewrite <- ?app_assoc;
    (split; [reflexivity|]); (split; [reflexivity|]);
    (split; [|split; reflexivity]);
    unfold validationLog_output, validation_lines; cbn [negb andb app];
    simpl; repeat (first [left; reflexivity | right]).
Qed.

Lemma subsequence_refl {T} (l : list T) : subsequence l l.
Proof. induction l; constructor; assumption. Qed.

Lemma subsequence_after {T} (before s l : list T) :
  subsequence s l -> subsequence s (before ++ l).
Proof.
  intros Hsub. induction before as [|x rest IH]; cbn [app].
  - exact Hsub.
  - constructor. exact IH.
Qed.

Lemma wrote_nothing (text : list string) (w : World) : wrote text w = w -> text = [].
Proof.
  intros Heq. apply (f_equal stderr) in Heq. cbn [wrote stderr] in Heq.
  apply (app_inv_head (stderr w)). rewrite app_nil_r. exact Heq.
Qed.

(** The dumper returns, and what it adds to [stderr] holds all it printed. *)
Lemma run_dumper_prints {A} (r : Routine DumperOp A) :
  forall w, exists a text,
    run (@dumper_op _ _) r w = Finished a (wrote text w)
    /\ subsequence (printed r w) text
    /\ (SWIFT_DEBUG_VALIDATE_EXTERNAL_GENERIC_METADATA_BUILDER < 2 -> text = printed r w).
Proof.
  induction r as [a|X op k IH]; intros w; cbn [run printed].
  - exists a, []. rewrite wrote_nil.
    split; [reflexivity|]. split; [constructor|reflexivity].
  - destruct op as [X q|text0]; cbn [dumper_op].
    + destruct (answer_returns q w) as (x & w1 & Hrun & Hw & Hquiet).
      destruct (only_wrote_wrote _ _ Hw) as (text1 & ->).
      destruct (IH x (wrote text1 w)) as (a & text2 & Hrun2 & Hsub & Hsame).
      exists a, (text1 ++ text2)%list.
      rewrite (bind_finished _ _ _ _ _ Hrun), Hrun, Hrun2, wrote_wrote. cbn [app].
      split; [reflexivity|]. split; [apply subsequence_after, Hsub|].
      intros Hlow. pose proof (wrote_nothing _ _ (Hquiet Hlow)) as Hnone. subst text1.
      apply Hsame, Hlow.
    + destruct (IH tt (wrote [text0] w)) as (a & text2 & Hrun2 & Hsub & Hsame).
      exists a, ([text0] ++ text2)%list.
      unfold printToStderr, bind, fputs_stderr. cbv beta iota.
      change (add_stderr text0 w) with (wrote [text0] w).
      rewrite Hrun2, wrote_wrote.
      split; [reflexivity|]. cbn [app]. split; [constructor; exact Hsub|].
      intros Hlow. f_equal. apply Hsame, Hlow.
Qed.

Lemma dumpMetadata_prints (metadata : Z) (w : World) :
  exists dumped text,
    dumpMetadata metadata w
    = Finished dumped (wrote text (add_call (CallDumpMetadata metadata) w))
    /\ dump_written metadata (add_call (CallDumpMetadata metadata) w) text.
Proof.
  unfold dumpMetadata, bind, record_call, dump_written.
  destruct (run_dumper_prints (Dumper_dumpMetadata (mkBuffer metadata))
              (add_call (CallDumpMetadata metadata) w))
    as (dumped & text & Hrun & Hsub & Hsame).
  exists dumped, text. rewrite Hrun. split; [reflexivity|]. split; assumption.
Qed.

(** Two spellings of one world. *)
Ltac same_world :=
  unfold extended, wrote, add_call; cbn [heap stderr allocated calls];
  f_equal; rewrite <- ?app_assoc; reflexivity.

(** The report of a mismatch, from the announcement to the fatal error:
    both dumps are written to [stderr], each after its heading. *)
Lemma mismatch_report_dumps (original newMetadata : Z) (w : World) :
  exists w' dump_original between dump_new tail,
    (validationLog true "Error! Mismatch between new/old metadata builders!" ;;;
     validationLog true "Original metadata:" ;;;
     dumped <- dumpMetadata original ;;
     match getError dumped with
     | Some error => validationLog true ("error dumping original metadata: " ++ cStr error)
     | None => ret tt
     end ;;;
     validationLog true "New metadata builder:" ;;;
     dumped <- dumpMetadata newMetadata ;;
     match getError dumped with
     | Some error => validationLog true ("error dumping new metadata: " ++ cStr error)
     | None => ret tt
     end ;;;
     fatalError (A := unit) 0 ("Fatal error: mismatched metadata." ++ LF)) w
    = Terminated (FatalError 0 ("Fatal error: mismatched metadata." ++ LF)) w'
    /\ w' = extended
              (validation_lines "Error! Mismatch between new/old metadata builders!"
               ++ validation_lines "Original metadata:" ++ dump_original ++ between
               ++ validation_lines "New metadata builder:" ++ dump_new ++ tail)
              [ CallDumpMetadata original; CallDumpMetadata newMetadata;
                CallFatalError 0 ("Fatal error: mismatched metadata." ++ LF) ]
              w
    /\ dump_written original
         (extended
            (validation_lines "Error! Mismatch between new/old metadata builders!"
             ++ validation_lines "Original metadata:")
            [CallDumpMetadata original] w)
         dump_original
    /\ dump_written newMetadata
         (extended
            (validation_lines "Error! Mismatch between new/old metadata builders!"
             ++ validation_lines "Original metadata:" ++ dump_original ++ between
             ++ validation_lines "New metadata builder:")
            [CallDumpMetadata original; CallDumpMetadata newMetadata] w)
         dump_new.
Proof.
  rewrite (bind_finished _ _ _ _ _ (validationLog_runs true _ w)).
  rewrite (bind_finished _ _ _ _ _ (validationLog_runs true _ _)).
  change (validationLog_output true ?m) with (validation_lines m).
  destruct (dumpMetadata_prints original
              (wrote (validation_lines "Original metadata:")
                 (wrote (validation_lines
                           "Error! Mismatch between new/old metadata builders!") w)))
    as (dumped1 & text1 & Hrun1 & Hdump1).
  rewrite (bind_finished _ _ _ _ _ Hrun1).
  set (between := match getError dumped1 with
                  | Some error =>
                      validation_lines ("error dumping original metadata: " ++ cStr error)
                  | None => []
                  end).
  assert (Hbetween :
            forall (k : unit -> M unit) w0,
              bind (match getError dumped1 with
                    | Some error =>
                        validationLog true ("error dumping original metadata: " ++ cStr error)
                    | None => ret tt
                    end) k w0 = k tt (wrote between w0)).
  { intros k w0. unfold between. destruct (getError dumped1).
    - rewrite (bind_finished _ _ _ _ _ (validationLog_runs true _ w0)). reflexivity.
    - rewrite wrote_nil. reflexivity. }
  rewrite Hbetween.
  rewrite (bind_finished _ _ _ _ _ (validationLog_runs true _ _)).
  change (validationLog_output true ?m) with (validation_lines m).
  match goal with
  | |- context [bind (dumpMetadata newMetadata) _ ?w0] =>
      destruct (dumpMetadata_prints newMetadata w0) as (dumped2 & text2 & Hrun2 & Hdump2)
  end.
  rewrite (bind_finished _ _ _ _ _ Hrun2).
  set (tail := match getError dumped2 with
               | Some error =>
                   validation_lines ("error dumping new metadata: " ++ cStr error)
               | None => []
               end).
  assert (Htail :
            forall (k : unit -> M unit) w0,
              bind (match getError dumped2 with
                    | Some error =>
                        validationLog true ("error dumping new metadata: " ++ cStr error)
                    | None => ret tt
                    end) k w0 = k tt (wrote tail w0)).
  { intros k w0. unfold tail. destruct (getError dumped2).
    - rewrite (bind_finished _ _ _ _ _ (validationLog_runs true _ w0)). reflexivity.
    - rewrite wrote_nil. reflexivity. }
  rewrite Htail. unfold fatalError.
  eexists. exists text1, between, text2, tail.
  split; [reflexivity|]. split; [same_world|]. split.
  - match goal with
    | H : dump_written original ?wa text1 |- dump_written original ?wb text1 =>
        replace wb with wa; [exact H|same_world]
    end.
  - match goal with
    | H : dump_written newMetadata ?wa text2 |- dump_written newMetadata ?wb text2 =>
        replace wb with wa; [exact H|same_world]
    end.
Qed.

(** The end of the proof below, the same for each test that failed. *)
Ltac report_dumps original newMetadata w :=
  let w' := fresh "w'" in
  let dump1 := fresh "dump1" in
  let between := fresh "between" in
  let dump2 := fresh "dump2" in
  let tail := fresh "tail" in
  let Hrun := fresh "Hrun" in
  let Hw' := fresh "Hw'" in
  let Hdump1 := fresh "Hdump1" in
  let Hdump2 := fresh "Hdump2" in
  match goal with
  | |- context [bind _ _ ?w0] =>
      destruct (mismatch_report_dumps original newMetadata w0)
        as (w' & dump1 & between & dump2 & tail & Hrun & Hw' & Hdump1 & Hdump2)
  end;
  rewrite (bind_terminated _ _ _ _ _ Hrun);
  change (validationLog_output true ?m) with (validation_lines m) in *;
  exists w';
  match type of Hw' with
  | _ = extended _ _ (wrote ?h2 (add_call _ (wrote ?h1 (add_call _ w)))) =>
      exists (h1 ++ h2)%list
  | _ = extended _ _ (wrote ?h2 (add_call _ (add_call _ w))) =>
      exists h2
  | _ = extended _ _ (add_call _ (wrote ?h1 (add_call _ w))) =>
      exists h1
  end;
  exists dump1, between, dump2, tail;
  (split; [reflexivity|]);
  (split; [rewrite Hw'; same_world|]);
  (split;
   [ match type of Hdump1 with
     | dump_written _ ?wa _ =>
         match goal with
         | |- dump_written _ ?wb _ => replace wb with wa; [exact Hdump1|same_world]
         end
     end
   | match type of Hdump2 with
     | dump_written _ ?wa _ =>
         match goal with
         | |- dump_written _ ?wb _ => replace wb with wa; [exact Hdump2|same_world]
         end
     end ]).

(** When a test fails, both records are dumped to [stderr] before the fatal
    error. *)
Lemma compareMetadata_fail_dumps (original newMetadata extra : Z) (w : World) :
  tables_match original newMetadata (heap w) = false
  \/ bytes_match original newMetadata extra (heap w) = false ->
  exists w' head dump_original between dump_new tail,
    compareMetadata original newMetadata extra w
    = Terminated (FatalError 0 ("Fatal error: mismatched metadata." ++ LF)) w'
    /\ w' = extended
              (head
               ++ validation_lines "Error! Mismatch between new/old metadata builders!"
               ++ validation_lines "Original metadata:" ++ dump_original ++ between
               ++ validation_lines "New metadata builder:" ++ dump_new ++ tail)
              (mismatch_calls original newMetadata extra (heap w)) w
    /\ dump_written original
         (extended
            (head
             ++ validation_lines "Error! Mismatch between new/old metadata builders!"
             ++ validation_lines "Original metadata:")
            [ CallEqualVWTs (ValueWitnesses (heap w) (asFullMetadata original))
                            (ValueWitnesses (heap w) (asFullMetadata newMetadata));
              CallMemcmp original newMetadata (wrap64 (sizeof_ValueMetadata + extra));
              CallDumpMetadata original ] w)
         dump_original
    /\ dump_written newMetadata
         (extended
            (head
             ++ validation_lines "Error! Mismatch between new/old metadata builders!"
             ++ validation_lines "Original metadata:" ++ dump_original ++ between
             ++ validation_lines "New metadata builder:")
            [ CallEqualVWTs (ValueWitnesses (heap w) (asFullMetadata original))
                            (ValueWitnesses (heap w) (asFullMetadata newMetadata));
              CallMemcmp original newMetadata (wrap64 (sizeof_ValueMetadata + extra));
              CallDumpMetadata original; CallDumpMetadata newMetadata ] w)
         dump_new.
Proof.
  unfold tables_match, bytes_match, mismatch_calls. intros Hfails.
  unfold compareMetadata. cbv zeta.
  step. step.
  destruct (equalVWTs _ _) eqn:Htables; cbn [negb];
    repeat step; cbn [heap add_call wrote];
    (destruct (memcmp _ _ _ _ =? 0) eqn:Hbytes; cbn [negb];
     [ try (destruct Hfails; discriminate) | ]);
    repeat step; cbn [negb];
    report_dumps original newMetadata w.
Qed.

End Comparison.

Section ValueWitnessTables.
Context `{Runtime}.

Lemma none_differs_true (differs : WitnessEntry -> bool) (entries : list WitnessEntry) :
  none_differs differs entries = true <-> Forall (fun e => differs e = false) entries.
Proof.
  induction entries as [|e rest IH]; simpl.
  - split; [constructor|reflexivity].
  - destruct (differs e) eqn:He.
    + split; [discriminate|]. intros Hall. inversion Hall; subst. congruence.
    + rewrite IH. split.
      * intros Hrest. constructor; assumption.
      * intros Hall. inversion Hall; assumption.
Qed.

Lemma none_differs_ext (f g : WitnessEntry -> bool) (entries : list WitnessEntry) :
  Forall (fun e => f e = g e) entries ->
  none_differs f entries = none_differs g entries.
Proof.
  induction 1 as [|e rest He _ IH]; simpl.
  - reflexivity.
  - rewrite He, IH. reflexivity.
Qed.

Lemma required_field_differs_false (a b : ValueWitnessTable) (e : WitnessEntry) :
  required_field_differs a b e = false <-> field a (LOWER_ID_of e) = field b (LOWER_ID_of e).
Proof.
  destruct e; simpl; unfold unwrapVWTField;
    rewrite negb_false_iff, Z.eqb_eq; reflexivity.
Qed.

Lemma enum_field_differs_false (a b : ValueWitnessTable) (e : WitnessEntry) :
  enum_field_differs a b e = false <-> field a (LOWER_ID_of e) = field b (LOWER_ID_of e).
Proof.
  unfold enum_field_differs, unwrapVWTField.
  rewrite negb_false_iff, Z.eqb_eq. reflexivity.
Qed.

Lemma none_differs_fields (differs : ValueWitnessTable -> ValueWitnessTable -> WitnessEntry -> bool)
    (a b : ValueWitnessTable) (entries : list WitnessEntry) :
  (forall e, differs a b e = false <-> field a (LOWER_ID_of e) = field b (LOWER_ID_of e)) ->
  (none_differs (differs a b) entries = true
   <-> Forall (fun e => field a (LOWER_ID_of e) = field b (LOWER_ID_of e)) entries).
Proof.
  intros Hfield. rewrite none_differs_true.
  split; intros Hall; eapply Forall_impl; try exact Hall; intros e; apply Hfield.
Qed.

(** C2: [equalVWTs] answers true exactly when every required field of the
    two tables is equal, the tables agree on being enum tables, and, when
    both are, every enum field is equal as well; when the tables are not both
    enum tables its answer depends on the required fields and on the kinds
    only, so no enum field is compared. *)
Theorem equalVWTs_iff (a b : ValueWitnessTable) :
  (equalVWTs a b = true
   <-> Forall (fun e => field a (LOWER_ID_of e) = field b (LOWER_ID_of e))
         REQUIRED_VALUE_WITNESSES
       /\ hasEnumWitnesses a = hasEnumWitnesses b
       /\ (hasEnumWitnesses a = true -> hasEnumWitnesses b = true ->
           Forall (fun e => field a (LOWER_ID_of e) = field b (LOWER_ID_of e))
             ENUM_VALUE_WITNESSES))
  /\ (forall a' b',
        hasEnumWitnesses a && hasEnumWitnesses b = false ->
        same_required a a' -> same_required b b' ->
        equalVWTs a' b' = equalVWTs a b).
Proof.
  split.
  - unfold equalVWTs.
    pose proof (none_differs_fields required_field_differs a b REQUIRED_VALUE_WITNESSES
                  (required_field_differs_false a b)) as Hreq.
    pose proof (none_differs_fields enum_field_differs a b ENUM_VALUE_WITNESSES
                  (enum_field_differs_false a b)) as Henum.
    destruct (none_differs (required_field_differs a b) REQUIRED_VALUE_WITNESSES);
      cbn [negb].
    + destruct (hasEnumWitnesses a), (hasEnumWitnesses b); cbn [negb andb].
      * destruct (none_differs (enum_field_differs a b) ENUM_VALUE_WITNESSES);
          cbn [negb].
        -- split; [|reflexivity]. intros _.
           split; [apply Hreq; reflexivity|]. split; [reflexivity|].
           intros _ _. apply Henum. reflexivity.
        -- split; [discriminate|]. intros (_ & _ & Hall).
           apply Henum, Hall; reflexivity.
      * split; [discriminate|]. intros (_ & Hkind & _). discriminate.
      * split; [discriminate|]. intros (_ & Hkind & _). discriminate.
      * split; [|reflexivity]. intros _.
        split; [apply Hreq; reflexivity|]. split; [reflexivity|]. discriminate.
    + split; [discriminate|]. intros (Hall & _). apply Hreq, Hall.
  - intros a' b' Hnot (Hka & Hfa) (Hkb & Hfb). unfold equalVWTs.
    assert (Hsame : none_differs (required_field_differs a' b') REQUIRED_VALUE_WITNESSES
                    = none_differs (required_field_differs a b) REQUIRED_VALUE_WITNESSES).
    { apply none_differs_ext.
      rewrite Forall_forall in *. intros e He.
      specialize (Hfa e He). specialize (Hfb e He).
      destruct e; simpl in *; rewrite Hfa, Hfb; reflexivity. }
    rewrite Hsame, Hka, Hkb.
    destruct (none_differs (required_field_differs a b) REQUIRED_VALUE_WITNESSES);
      cbn [negb]; [|reflexivity].
    destruct (hasEnumWitnesses a), (hasEnumWitnesses b);
      cbn [negb andb] in *; try reflexivity; discriminate.
Qed.

End ValueWitnessTables.

(** Example tables: an enum field that differs is not looked at in tables
    that are not enum tables; a required field that differs is. *)
Lemma equalVWTs_iff_witness :
  @equalVWTs Example.runtime Example.table_a Example.table_b = true
  /\ @equalVWTs Example.runtime Example.table_a Example.table_c = false.
Proof.
  split.
  - rewrite (proj2 (@equalVWTs_iff Example.runtime Example.table_a Example.table_a)
               Example.table_a Example.table_b eq_refl).
    + reflexivity.
    + split; [reflexivity|]. repeat constructor.
    + split; [reflexivity|]. repeat constructor.
  - destruct (@equalVWTs Example.runtime Example.table_a Example.table_c) eqn:Heq;
      [|reflexivity].
    apply (proj1 (@equalVWTs_iff Example.runtime Example.table_a Example.table_c)) in Heq.
    destruct Heq as (Hall & _). exfalso.
    inversion Hall as [|e1 rest1 _ Hrest]; subst.
    inversion Hrest as [|e2 rest2 Hdestroy _]; subst.
    vm_compute in Hdestroy. discriminate.
Defined.

Section ByteComparison.
Import InProcessReaderWriter GenericMetadataBuilder.
Context `{Platform} `{Runtime} `{Builder}.

Lemma memcmp_bytes_zero (n : nat) :
  forall (m : Memory) (s1 s2 : Z),
    memcmp_bytes (loadBytes m s1 n) (loadBytes m s2 n) = 0
    <-> (forall i, 0 <= i < Z.of_nat n -> m (s1 + i) = m (s2 + i)).
Proof.
  induction n as [|k IH]; intros m s1 s2; cbn [loadBytes memcmp_bytes].
  - split; [intros _ i Hi; lia|reflexivity].
  - destruct (Z.eqb_spec (byte.unsigned (m s1)) (byte.unsigned (m s2))) as [Heq|Hneq].
    + apply byte.unsigned_inj in Heq. rewrite IH. split.
      * intros Hrest i Hi. destruct (Z.eq_dec i 0) as [->|Hpos].
        -- rewrite !Z.add_0_r. exact Heq.
        -- replace (s1 + i) with (s1 + 1 + (i - 1)) by lia.
           replace (s2 + i) with (s2 + 1 + (i - 1)) by lia.
           apply Hrest. lia.
      * intros Hall i Hi.
        replace (s1 + 1 + i) with (s1 + (i + 1)) by lia.
        replace (s2 + 1 + i) with (s2 + (i + 1)) by lia.
        apply Hall. lia.
    + split.
      * intros Hzero. lia.
      * intros Hall. exfalso. apply Hneq.
        specialize (Hall 0). rewrite !Z.add_0_r in Hall. rewrite Hall by lia. reflexivity.
Qed.

Lemma memcmp_zero (m : Memory) (s1 s2 n : Z) :
  0 <= n ->
  (memcmp m s1 s2 n = 0 <-> (forall i, 0 <= i < n -> m (s1 + i) = m (s2 + i))).
Proof.
  intros Hn. unfold memcmp. rewrite memcmp_bytes_zero, Z2Nat.id by exact Hn. reflexivity.
Qed.

(** C9: the byte comparison is one [memcmp] of the two records, from their
    metadata addresses, over [sizeof(ValueMetadata) + extraDataSize] bytes;
    the records pass it exactly when those bytes are the same, and, the
    tables being equal, the comparison returns exactly then. *)
Theorem byte_comparison_covers_header_and_extra (original newMetadata extra : Z)
    (w : World) :
  0 <= sizeof_ValueMetadata -> 0 <= extra -> sizeof_ValueMetadata + extra < 2 ^ 64 ->
  (exists rest,
     calls (final_world (compareMetadata original newMetadata extra w))
     = (calls w
        ++ [ CallEqualVWTs (ValueWitnesses (heap w) (asFullMetadata original))
                           (ValueWitnesses (heap w) (asFullMetadata newMetadata));
             CallMemcmp original newMetadata (sizeof_ValueMetadata + extra) ]
        ++ rest)%list
     /\ forall s1 s2 n, ~ In (CallMemcmp s1 s2 n) rest)
  /\ (bytes_match original newMetadata extra (heap w) = true
      <-> (forall i, 0 <= i < sizeof_ValueMetadata + extra ->
                     heap w (original + i) = heap w (newMetadata + i)))
  /\ (tables_match original newMetadata (heap w) = true ->
      (returned (compareMetadata original newMetadata extra w) = true
       <-> (forall i, 0 <= i < sizeof_ValueMetadata + extra ->
                      heap w (original + i) = heap w (newMetadata + i)))).
Proof.
  intros Hheader Hextra Hfits.
  assert (Htotal : wrap64 (sizeof_ValueMetadata + extra) = sizeof_ValueMetadata + extra).
  { unfold wrap64. apply Z.mod_small. lia. }
  assert (Hbytes : bytes_match original newMetadata extra (heap w) = true
                   <-> (forall i, 0 <= i < sizeof_ValueMetadata + extra ->
                                  heap w (original + i) = heap w (newMetadata + i))).
  { unfold bytes_match. rewrite Htotal, Z.eqb_eq. apply memcmp_zero. lia. }
  split; [|split; [exact Hbytes|]].
  - destruct (tables_match original newMetadata (heap w)) eqn:Htables;
      [destruct (bytes_match original newMetadata extra (heap w)) eqn:Hmatch|].
    + rewrite compareMetadata_pass by assumption.
      exists []. cbn [final_world calls wrote add_call]. rewrite Htotal.
      rewrite <- app_assoc. split; [reflexivity|]. intros s1 s2 n [].
    + destruct (compareMetadata_fail original newMetadata extra w (or_intror Hmatch))
        as (w' & text & -> & Hcalls & _).
      cbn [final_world]. rewrite Hcalls. unfold mismatch_calls. rewrite Htotal.
      eexists. split; [reflexivity|].
      intros s1 s2 n [Hin|[Hin|[Hin|[]]]]; discriminate.
    + destruct (compareMetadata_fail original newMetadata extra w (or_introl Htables))
        as (w' & text & -> & Hcalls & _).
      cbn [final_world]. rewrite Hcalls. unfold mismatch_calls. rewrite Htotal.
      eexists. split; [reflexivity|].
      intros s1 s2 n [Hin|[Hin|[Hin|[]]]]; discriminate.
  - intros Htables. rewrite <- Hbytes.
    destruct (bytes_match original newMetadata extra (heap w)) eqn:Hmatch.
    + rewrite compareMetadata_pass by assumption. split; reflexivity.
    + destruct (compareMetadata_fail original newMetadata extra w (or_intror Hmatch))
        as (w' & text & -> & _).
      split; discriminate.
Qed.

End ByteComparison.

Section Harness.
Import InProcessReaderWriter GenericMetadataBuilder.
Context `{Platform} `{Runtime} `{Builder}.

(** The harness on a generic value type: the three stages, then the
    comparison. *)
Lemma validate_generic (original description arguments : Z) (w : World) :
  isa_ValueTypeDescriptor (heap w) description = true ->
  isGeneric (heap w) description = true ->
  validateExternalGenericMetadataBuilder original description arguments w
  = (extraDataSize <-
       genericValueDataExtraSize description
         (DefaultInstantiationPattern (heap w) description) ;;
     match extraDataSize with
     | Error error => validationLog false ("error getting extra data size: " ++ cStr error)
     | Value extra =>
         maybeNewMetadata <-
           allocateGenericValueMetadata description arguments
             (DefaultInstantiationPattern (heap w) description) extra ;;
         match maybeNewMetadata with
         | Error error => validationLog false ("error allocating metadata: " ++ cStr error)
         | Value newMetadata =>
             success <- initializeGenericValueMetadata newMetadata ;;
             if negb success then ret tt
             else compareMetadata original newMetadata extra
         end
     end) w.
Proof.
  intros Hvalue Hgeneric. unfold validateExternalGenericMetadataBuilder.
  change (bind get_heap ?k w) with (k (heap w) w). cbv beta zeta.
  rewrite Hvalue, Hgeneric. reflexivity.
Qed.

Lemma allocateGenericValueMetadata_effect (description arguments pattern extra : Z)
    (w : World) :
  backend_effect w
    (final_world (allocateGenericValueMetadata description arguments pattern extra w)).
Proof.
  unfold allocateGenericValueMetadata, bind.
  destruct (run_builder_effect
              (buildGenericValueMetadata (mkBuffer description) arguments
                 (mkBuffer pattern) extra) w) as (Heffect & _).
  destruct (run_builder _ w) as [[result|e] w'|why w']; exact Heffect.
Qed.

(** C10: for a descriptor that is not a value type descriptor, or not a
    generic one, the call returns at once and leaves the process as it was:
    nothing allocated, nothing written, nothing called. *)
Theorem validate_skips_other_descriptors (original description arguments : Z) (w : World) :
  isa_ValueTypeDescriptor (heap w) description = false
  \/ isGeneric (heap w) description = false ->
  validateExternalGenericMetadataBuilder original description arguments w = Finished tt w.
Proof.
  intros Hskip. unfold validateExternalGenericMetadataBuilder.
  change (bind get_heap ?k w) with (k (heap w) w). cbv beta zeta.
  destruct (isa_ValueTypeDescriptor (heap w) description); [|reflexivity].
  destruct Hskip as [Hvalue|Hgeneric]; [discriminate|].
  rewrite Hgeneric. reflexivity.
Qed.

(** C5: on a generic value type, when the extra data size, the allocation or
    the initialization answers an error, the call writes the error (through
    [validationLog] for the first two, directly for the third), returns, and
    has made no call to the comparison, the dumper or [fatalError]. *)
Theorem builder_errors_end_validation (original description arguments : Z) (w : World) :
  isa_ValueTypeDescriptor (heap w) description = true ->
  isGeneric (heap w) description = true ->
  (forall e w1,
      genericValueDataExtraSize description
        (DefaultInstantiationPattern (heap w) description) w = Finished (Error e) w1 ->
      validateExternalGenericMetadataBuilder original description arguments w
      = Finished tt
          (wrote (validationLog_output false ("error getting extra data size: " ++ cStr e)) w1)
      /\ calls w1 = calls w)
  /\ (forall extra w1 e w2,
        genericValueDataExtraSize description
          (DefaultInstantiationPattern (heap w) description) w = Finished (Value extra) w1 ->
        allocateGenericValueMetadata description arguments
          (DefaultInstantiationPattern (heap w) description) extra w1
        = Finished (Error e) w2 ->
        validateExternalGenericMetadataBuilder original description arguments w
        = Finished tt
            (wrote (validationLog_output false ("error allocating metadata: " ++ cStr e)) w2)
        /\ calls w2 = calls w)
  /\ (forall extra w1 newMetadata w2 e w3,
        genericValueDataExtraSize description
          (DefaultInstantiationPattern (heap w) description) w = Finished (Value extra) w1 ->
        allocateGenericValueMetadata description arguments
          (DefaultInstantiationPattern (heap w) description) extra w1
        = Finished (Value newMetadata) w2 ->
        run_builder
          (initializeGenericMetadata
             (mkWritableData (mkBuffer (asFullMetadata newMetadata)) UINT_MAX) 0) w2
        = Finished (Error e) w3 ->
        validateExternalGenericMetadataBuilder original description arguments w
        = Finished tt
            (wrote ["swift_initializeGenericValueMetadata failed: " ++ cStr e] w3)
        /\ calls w3 = calls w).
Proof.
  intros Hvalue Hgeneric.
  assert (Hsize_calls : forall r w1,
             genericValueDataExtraSize description
               (DefaultInstantiationPattern (heap w) description) w = Finished r w1 ->
             calls w1 = calls w).
  { intros r w1 Hrun. unfold genericValueDataExtraSize in Hrun.
    destruct (run_builder_effect
                (extraDataSize (mkBuffer description)
                   (mkBuffer (DefaultInstantiationPattern (heap w) description))) w)
      as ((Hcalls & _) & _).
    rewrite Hrun in Hcalls. exact Hcalls. }
  assert (Halloc_calls : forall extra r w1 w2,
             allocateGenericValueMetadata description arguments
               (DefaultInstantiationPattern (heap w) description) extra w1 = Finished r w2 ->
             calls w2 = calls w1).
  { intros extra r w1 w2 Hrun.
    destruct (allocateGenericValueMetadata_effect description arguments
                (DefaultInstantiationPattern (heap w) description) extra w1)
      as (Hcalls & _).
    rewrite Hrun in Hcalls. exact Hcalls. }
  rewrite (validate_generic original description arguments w Hvalue Hgeneric).
  split; [|split].
  - intros e w1 Hsize. rewrite (bind_finished _ _ _ _ _ Hsize).
    split; [apply validationLog_runs|eapply Hsize_calls; eassumption].
  - intros extra w1 e w2 Hsize Halloc.
    rewrite (bind_finished _ _ _ _ _ Hsize). cbv beta iota.
    rewrite (bind_finished _ _ _ _ _ Halloc).
    split; [apply validationLog_runs|].
    rewrite (Halloc_calls _ _ _ _ Halloc). eapply Hsize_calls; eassumption.
  - intros extra w1 newMetadata w2 e w3 Hsize Halloc Hinit.
    rewrite (bind_finished _ _ _ _ _ Hsize). cbv beta iota.
    rewrite (bind_finished _ _ _ _ _ Halloc). cbv beta iota.
    assert (Hfalse : initializeGenericValueMetadata newMetadata w2
                     = Finished false
                         (wrote ["swift_initializeGenericValueMetadata failed: " ++ cStr e] w3)).
    { unfold initializeGenericValueMetadata.
      rewrite (bind_finished _ _ _ _ _ Hinit). reflexivity. }
    rewrite (bind_finished _ _ _ _ _ Hfalse). split; [reflexivity|].
    destruct (run_builder_effect
                (initializeGenericMetadata
                   (mkWritableData (mkBuffer (asFullMetadata newMetadata)) UINT_MAX) 0) w2)
      as ((Hcalls & _) & _).
    rewrite Hinit in Hcalls. cbn [final_world] in Hcalls.
    rewrite Hcalls, (Halloc_calls _ _ _ _ Halloc). eapply Hsize_calls; eassumption.
Qed.

(** C1: once the three stages have succeeded, a failure of the table test or
    of the byte test makes the call dump the original and the new record and
    end the process in the fatal error: after the announcement of the
    mismatch, [stderr] receives the heading of the original record, then all
    the dumper prints for it, then the heading of the new record and all the
    dumper prints for that one (below verbosity 2 exactly what the dumper
    prints).  When both tests pass the call returns, has dumped nothing, and
    has written the success trace with the type's name (at verbosity 2 and
    above) and nothing else. *)
Theorem comparison_reports (original description arguments extra newMetadata : Z)
    (w w1 w2 w3 : World) :
  isa_ValueTypeDescriptor (heap w) description = true ->
  isGeneric (heap w) description = true ->
  genericValueDataExtraSize description
    (DefaultInstantiationPattern (heap w) description) w = Finished (Value extra) w1 ->
  allocateGenericValueMetadata description arguments
    (DefaultInstantiationPattern (heap w) description) extra w1
  = Finished (Value newMetadata) w2 ->
  initializeGenericValueMetadata newMetadata w2 = Finished true w3 ->
  (tables_match original newMetadata (heap w3) = false
   \/ bytes_match original newMetadata extra (heap w3) = false ->
   exists w' text,
     validateExternalGenericMetadataBuilder original description arguments w
     = Terminated (FatalError 0 ("Fatal error: mismatched metadata." ++ LF)) w'
     /\ calls w' = (calls w3 ++ mismatch_calls original newMetadata extra (heap w3))%list
     /\ stderr w' = (stderr w3 ++ text)%list
     /\ In "Error! Mismatch between new/old metadata builders!" text
     /\ exists head dump_original between dump_new tail,
          text = (head
                  ++ validation_lines "Error! Mismatch between new/old metadata builders!"
                  ++ validation_lines "Original metadata:" ++ dump_original ++ between
                  ++ validation_lines "New metadata builder:" ++ dump_new ++ tail)%list
          /\ dump_written original
               (extended
                  (head
                   ++ validation_lines "Error! Mismatch between new/old metadata builders!"
                   ++ validation_lines "Original metadata:")
                  (firstn 3 (mismatch_calls original newMetadata extra (heap w3))) w3)
               dump_original
          /\ dump_written newMetadata
               (extended
                  (head
                   ++ validation_lines "Error! Mismatch between new/old metadata builders!"
                   ++ validation_lines "Original metadata:" ++ dump_original ++ between
                   ++ validation_lines "New metadata builder:")
                  (firstn 4 (mismatch_calls original newMetadata extra (heap w3))) w3)
               dump_new)
  /\ (tables_match original newMetadata (heap w3) = true ->
      bytes_match original newMetadata extra (heap w3) = true ->
      exists w',
        validateExternalGenericMetadataBuilder original description arguments w
        = Finished tt w'
        /\ calls w' = (calls w3 ++ match_calls original newMetadata extra (heap w3))%list
        /\ stderr w'
           = (stderr w3
              ++ (if SWIFT_DEBUG_VALIDATE_EXTERNAL_GENERIC_METADATA_BUILDER <? 2 then []
                  else validation_lines
                         ("Validated generic metadata builder on "
                          ++ swift_getTypeName (heap w3) original false)))%list
        /\ heap w' = heap w3 /\ allocated w' = allocated w3).
Proof.
  intros Hvalue Hgeneric Hsize Halloc Hinit.
  rewrite (validate_generic original description arguments w Hvalue Hgeneric).
  rewrite (bind_finished _ _ _ _ _ Hsize). cbv beta iota.
  rewrite (bind_finished _ _ _ _ _ Halloc). cbv beta iota.
  rewrite (bind_finished _ _ _ _ _ Hinit). cbn [negb].
  split.
  - intros Hfails.
    destruct (compareMetadata_fail_dumps original newMetadata extra w3 Hfails)
      as (w' & head & dump1 & between & dump2 & tail & Hrun & -> & Hdump1 & Hdump2).
    eexists. eexists. split; [exact Hrun|].
    cbn [calls stderr extended].
    split; [reflexivity|]. split; [reflexivity|]. split.
    + apply in_or_app. right. unfold validation_lines. cbn [app In].
      right. left. reflexivity.
    + exists head, dump1, between, dump2, tail.
      split; [reflexivity|]. split; [exact Hdump1|exact Hdump2].
  - intros Htables Hbytes.
    rewrite (compareMetadata_pass original newMetadata extra w3 Htables Hbytes).
    eexists. split; [reflexivity|].
    cbn [calls stderr heap allocated wrote add_call].
    rewrite <- app_assoc. repeat split.
Qed.

(** Below verbosity 2 the error paths of the extra data size and of the
    allocation, and the passing comparison, write nothing. *)
Lemma validationLog_false_silent (message : string) (w : World) :
  SWIFT_DEBUG_VALIDATE_EXTERNAL_GENERIC_METADATA_BUILDER < 2 ->
  validationLog false message w = Finished tt w.
Proof.
  intros Hlow. rewrite validationLog_runs. unfold validationLog_output.
  destruct (Z.ltb_spec SWIFT_DEBUG_VALIDATE_EXTERNAL_GENERIC_METADATA_BUILDER 2); [|lia].
  cbn [negb andb]. rewrite wrote_nil. reflexivity.
Qed.

(** A failure is written at every verbosity. *)
Lemma validationLog_true_writes (message : string) (w : World) :
  validationLog true message w = Finished tt (wrote (validation_lines message) w).
Proof. rewrite validationLog_runs. reflexivity. Qed.

(** The failure of the initialization is written at every verbosity: the
    text does not pass through [validationLog]. *)
Lemma initialization_failure_is_written (metadata : Z) (e : BuilderError) (w w' : World) :
  run_builder
    (initializeGenericMetadata
       (mkWritableData (mkBuffer (asFullMetadata metadata)) UINT_MAX) 0) w
  = Finished (Error e) w' ->
  initializeGenericValueMetadata metadata w
  = Finished false (wrote ["swift_initializeGenericValueMetadata failed: " ++ cStr e] w').
Proof.
  intros Hinit. unfold initializeGenericValueMetadata.
  rewrite (bind_finished _ _ _ _ _ Hinit). reflexivity.
Qed.

(** X14: below verbosity 2 every returning path but the failed initialization
    writes nothing: the two other error paths and the passing comparison. *)
Lemma other_paths_are_silent_below_2 (original description arguments : Z) (w : World) :
  SWIFT_DEBUG_VALIDATE_EXTERNAL_GENERIC_METADATA_BUILDER < 2 ->
  isa_ValueTypeDescriptor (heap w) description = true ->
  isGeneric (heap w) description = true ->
  (forall e w1,
      genericValueDataExtraSize description
        (DefaultInstantiationPattern (heap w) description) w = Finished (Error e) w1 ->
      validateExternalGenericMetadataBuilder original description arguments w
      = Finished tt w1
      /\ stderr w1 = stderr w)
  /\ (forall extra w1 e w2,
        genericValueDataExtraSize description
          (DefaultInstantiationPattern (heap w) description) w = Finished (Value extra) w1 ->
        allocateGenericValueMetadata description arguments
          (DefaultInstantiationPattern (heap w) description) extra w1
        = Finished (Error e) w2 ->
        validateExternalGenericMetadataBuilder original description arguments w
        = Finished tt w2
        /\ stderr w2 = stderr w)
  /\ (forall extra w1 newMetadata w2 w3,
        genericValueDataExtraSize description
          (DefaultInstantiationPattern (heap w) description) w = Finished (Value extra) w1 ->
        allocateGenericValueMetadata description arguments
          (DefaultInstantiationPattern (heap w) description) extra w1
        = Finished (Value newMetadata) w2 ->
        initializeGenericValueMetadata newMetadata w2 = Finished true w3 ->
        tables_match original newMetadata (heap w3) = true ->
        bytes_match original newMetadata extra (heap w3) = true ->
        stderr (final_world
                  (validateExternalGenericMetadataBuilder original description arguments w))
        = stderr w).
Proof.
  intros Hlow Hvalue Hgeneric.
  assert (Hsize_quiet : forall r w1,
             genericValueDataExtraSize description
               (DefaultInstantiationPattern (heap w) description) w = Finished r w1 ->
             stderr w1 = stderr w).
  { intros r w1 Hrun. unfold genericValueDataExtraSize in Hrun.
    destruct (run_builder_effect
                (extraDataSize (mkBuffer description)
                   (mkBuffer (DefaultInstantiationPattern (heap w) description))) w)
      as ((_ & _ & Hquiet) & _).
    rewrite Hrun in Hquiet. apply Hquiet, Hlow. }
  assert (Halloc_quiet : forall extra r w1 w2,
             allocateGenericValueMetadata description arguments
               (DefaultInstantiationPattern (heap w) description) extra w1 = Finished r w2 ->
             stderr w2 = stderr w1).
  { intros extra r w1 w2 Hrun.
    destruct (allocateGenericValueMetadata_effect description arguments
                (DefaultInstantiationPattern (heap w) description) extra w1)
      as (_ & _ & Hquiet).
    rewrite Hrun in Hquiet. apply Hquiet, Hlow. }
  rewrite (validate_generic original description arguments w Hvalue Hgeneric).
  split; [|split].
  - intros e w1 Hsize. rewrite (bind_finished _ _ _ _ _ Hsize).
    split; [apply validationLog_false_silent, Hlow|eapply Hsize_quiet; eassumption].
  - intros extra w1 e w2 Hsize Halloc.
    rewrite (bind_finished _ _ _ _ _ Hsize). cbv beta iota.
    rewrite (bind_finished _ _ _ _ _ Halloc).
    split; [apply validationLog_false_silent, Hlow|].
    rewrite (Halloc_quiet _ _ _ _ Halloc). eapply Hsize_quiet; eassumption.
  - intros extra w1 newMetadata w2 w3 Hsize Halloc Hinit Htables Hbytes.
    rewrite (bind_finished _ _ _ _ _ Hsize). cbv beta iota.
    rewrite (bind_finished _ _ _ _ _ Halloc). cbv beta iota.
    rewrite (bind_finished _ _ _ _ _ Hinit). cbn [negb].
    rewrite (compareMetadata_pass original newMetadata extra w3 Htables Hbytes).
    cbn [final_world stderr wrote add_call]. unfold validationLog_output.
    destruct (Z.ltb_spec SWIFT_DEBUG_VALIDATE_EXTERNAL_GENERIC_METADATA_BUILDER 2); [|lia].
    cbn [negb andb]. rewrite app_nil_r.
    assert (Hinit_quiet : stderr w3 = stderr w2).
    { unfold initializeGenericValueMetadata, bind in Hinit.
      destruct (run_builder_effect
                  (initializeGenericMetadata
                     (mkWritableData (mkBuffer (asFullMetadata newMetadata)) UINT_MAX) 0) w2)
        as ((_ & _ & Hquiet) & _).
      destruct (run_builder _ w2) as [[[]|e] w'|why w']; cbn in Hinit; try discriminate.
      injection Hinit as <-. apply Hquiet, Hlow. }
    rewrite Hinit_quiet, (Halloc_quiet _ _ _ _ Halloc). eapply Hsize_quiet; eassumption.
Qed.

End Harness.

(** * Runs of the example process *)

(** A buffer outside every image, and one in an image that has no name. *)
Lemma getSymbolInfo_never_fails_witness :
  @InProcessReaderWriter.getSymbolInfo (Example.platform 0 false)
    (InProcessReaderWriter.mkBuffer 7)
  = InProcessReaderWriter.mkSymbolInfo "<unknown>" "<unknown>" 0
  /\ InProcessReaderWriter.libraryName
       (@InProcessReaderWriter.getSymbolInfo (Example.platform 0 false)
          (InProcessReaderWriter.mkBuffer 12288)) = "<unknown>"
  /\ last_component "/usr/lib/swift/libswiftCore.dylib"
       (InProcessReaderWriter.libraryName
          (@InProcessReaderWriter.getSymbolInfo (Example.platform 0 false)
             (InProcessReaderWriter.mkBuffer 5000))).
Proof.
  split; [|split].
  - apply (proj1 (@getSymbolInfo_never_fails (Example.platform 0 false)
                    (InProcessReaderWriter.mkBuffer 7))).
    right. reflexivity.
  - apply (proj2 (@getSymbolInfo_never_fails (Example.platform 0 false)
                    (InProcessReaderWriter.mkBuffer 12288))
             (mkDl_info None 12288 None 0) eq_refl eq_refl).
    reflexivity.
  - apply (proj2 (@getSymbolInfo_never_fails (Example.platform 0 false)
                    (InProcessReaderWriter.mkBuffer 5000))
             (mkDl_info (Some "/usr/lib/swift/libswiftCore.dylib") 4096 None 4096)
             eq_refl eq_refl).
    reflexivity.
Defined.

(** A name the process does not have, on a platform with [dlsym]. *)
Lemma getSymbolPointer_outcomes_witness :
  exists w',
    @InProcessReaderWriter.getSymbolPointer (Example.platform 0 false) "swift_release"
      Example.start
    = Finished (Error (mkBuilderError "dlsym could not find symbol 'swift_release'")) w'
    /\ only_wrote Example.start w'.
Proof.
  apply (proj1 (proj2 (@getSymbolPointer_outcomes (Example.platform 0 false)
                         "swift_release" Example.start)));
    reflexivity.
Defined.

(** A class descriptor. *)
Lemma validate_skips_other_descriptors_witness :
  @validateExternalGenericMetadataBuilder (Example.platform 2 false) Example.runtime
    (Example.builder Example.Faithful) 1000 300 0 Example.start
  = Finished tt Example.start.
Proof.
  apply (@validate_skips_other_descriptors (Example.platform 2 false) Example.runtime
           (Example.builder Example.Faithful) 1000 300 0 Example.start).
  left. reflexivity.
Defined.

(** A builder that cannot size the extra data, at full verbosity. *)
Lemma builder_errors_end_validation_witness :
  @validateExternalGenericMetadataBuilder (Example.platform 2 false) Example.runtime
    (Example.builder Example.FailsSize) 1000 100 0 Example.start
  = Finished tt
      (wrote (validation_lines "error getting extra data size: no pattern") Example.start).
Proof.
  apply (proj1 (@builder_errors_end_validation (Example.platform 2 false) Example.runtime
                  (Example.builder Example.FailsSize) 1000 100 0 Example.start
                  eq_refl eq_refl)
           (mkBuilderError "no pattern") Example.start).
  reflexivity.
Defined.

(** A builder that sets one byte of the record wrongly, at verbosity 0: the
    call ends in the fatal error, and [stderr] holds the announcement and
    the dumper's line for each of the two records. *)
Lemma comparison_reports_witness :
  exists w',
    @validateExternalGenericMetadataBuilder (Example.platform 0 false) Example.runtime
      (Example.builder Example.Corrupts) 1000 100 0 Example.start
    = Terminated (FatalError 0 ("Fatal error: mismatched metadata." ++ LF)) w'
    /\ calls w'
       = [ CallEqualVWTs 0 0; CallMemcmp 1000 65552 24; CallDumpMetadata 1000;
           CallDumpMetadata 65552;
           CallFatalError 0 ("Fatal error: mismatched metadata." ++ LF) ]
    /\ In "Error! Mismatch between new/old metadata builders!" (stderr w')
    /\ In ("Metadata at 0x3e8" ++ LF) (stderr w')
    /\ In ("Metadata at 0x10010" ++ LF) (stderr w').
Proof.
  destruct (proj1 (@comparison_reports (Example.platform 0 false) Example.runtime
                     (Example.builder Example.Corrupts) 1000 100 0 8 65552
                     Example.start
                     (final_world
                        (@genericValueDataExtraSize (Example.platform 0 false)
                           Example.runtime (Example.builder Example.Corrupts)
                           100 500 Example.start))
                     (final_world
                        (@allocateGenericValueMetadata (Example.platform 0 false)
                           Example.runtime (Example.builder Example.Corrupts)
                           100 0 500 8 Example.start))
                     (final_world
                        (@allocateGenericValueMetadata (Example.platform 0 false)
                           Example.runtime (Example.builder Example.Corrupts)
                           100 0 500 8 Example.start))
                     eq_refl eq_refl eq_refl eq_refl eq_refl)
              ltac:(right; vm_compute; reflexivity))
    as (w' & text & Hrun & Hcalls & Hstderr & Hin
        & head & dump1 & between & dump2 & tail & Htext & (_ & Hexact1) & (_ & Hexact2)).
  exists w'. split; [exact Hrun|]. split; [exact Hcalls|].
  change (stderr w' = text) in Hstderr. rewrite Hstderr.
  split; [exact Hin|].
  rewrite Htext, (Hexact1 ltac:(cbn; lia)), (Hexact2 ltac:(cbn; lia)).
  split.
  - apply in_or_app; right. apply in_or_app; right. apply in_or_app; right.
    apply in_or_app; left. left. reflexivity.
  - apply in_or_app; right. apply in_or_app; right. apply in_or_app; right.
    apply in_or_app; right. apply in_or_app; right. apply in_or_app; right.
    apply in_or_app; left. left. reflexivity.
Defined.

(** The faithful builder: the 24 bytes of the two records agree. *)
Lemma byte_comparison_covers_header_and_extra_witness :
  returned
    (@compareMetadata (Example.platform 0 false) Example.runtime
       (Example.builder Example.Faithful) 1000 65552 8
       (final_world
          (@allocateGenericValueMetadata (Example.platform 0 false) Example.runtime
             (Example.builder Example.Faithful) 100 0 500 8 Example.start))) = true
  <-> (forall i, 0 <= i < 16 + 8 ->
         heap (final_world
                 (@allocateGenericValueMetadata (Example.platform 0 false) Example.runtime
                    (Example.builder Example.Faithful) 100 0 500 8 Example.start))
              (1000 + i)
         = heap (final_world
                   (@allocateGenericValueMetadata (Example.platform 0 false) Example.runtime
                      (Example.builder Example.Faithful) 100 0 500 8 Example.start))
                (65552 + i)).
Proof.
  apply (proj2 (proj2 (@byte_comparison_covers_header_and_extra
                         (Example.platform 0 false) Example.runtime
                         (Example.builder Example.Faithful) 1000 65552 8
                         (final_world
                            (@allocateGenericValueMetadata (Example.platform 0 false)
                               Example.runtime (Example.builder Example.Faithful)
                               100 0 500 8 Example.start))
                         ltac:(simpl; lia) ltac:(lia) ltac:(simpl; lia)))).
  vm_compute. reflexivity.
Defined.

(** C8, at an input where the code departs from it: at verbosity 0 a
    builder whose initialization fails makes the call write to [stderr],
    and the call returns. *)
Theorem initialization_failure_writes_at_verbosity_0 :
  @validateExternalGenericMetadataBuilder (Example.platform 0 false) Example.runtime
    (Example.builder Example.FailsInitialize) 1000 100 0 Example.start
  = Finished tt
      (wrote ["swift_initializeGenericValueMetadata failed: missing field type"]
         (final_world
            (@allocateGenericValueMetadata (Example.platform 0 false) Example.runtime
               (Example.builder Example.FailsInitialize) 100 0 500 8 Example.start)))
  /\ stderr
       (final_world
          (@validateExternalGenericMetadataBuilder (Example.platform 0 false)
             Example.runtime (Example.builder Example.FailsInitialize) 1000 100 0
             Example.start))
     = ["swift_initializeGenericValueMetadata failed: missing field type"]
  /\ stderr Example.start = [].
Proof.
  split; [|split]; reflexivity.
Qed.

(** The faithful builder at verbosity 2: one allocation, the builder's trace
    line, the two tests, the success trace. *)
Example faithful_run_is_validated :
  @validateExternalGenericMetadataBuilder (Example.platform 2 false) Example.runtime
    (Example.builder Example.Faithful) 1000 100 0 Example.start
  = Finished tt
      (final_world
         (@validateExternalGenericMetadataBuilder (Example.platform 2 false)
            Example.runtime (Example.builder Example.Faithful) 1000 100 0 Example.start))
  /\ stderr
       (final_world
          (@validateExternalGenericMetadataBuilder (Example.platform 2 false)
             Example.runtime (Example.builder Example.Faithful) 1000 100 0 Example.start))
     = [ "GenericMetadataBuilder.h:1:extraDataSize: "; "8 bytes"; LF;
         "GenericMetadataBuilder validation: ";
         "Validated generic metadata builder on main.Box<Swift.Int>"; LF ]
  /\ allocated
       (final_world
          (@validateExternalGenericMetadataBuilder (Example.platform 2 false)
             Example.runtime (Example.builder Example.Faithful) 1000 100 0 Example.start))
     = [(65536, 40)]
  /\ calls
       (final_world
          (@validateExternalGenericMetadataBuilder (Example.platform 2 false)
             Example.runtime (Example.builder Example.Faithful) 1000 100 0 Example.start))
     = [CallEqualVWTs 0 0; CallMemcmp 1000 65552 24].
Proof. repeat split. Qed.

(** The corrupting builder at verbosity 0: everything the fatal path
    writes. *)
Example corrupted_run_is_reported :
  stderr
    (final_world
       (@validateExternalGenericMetadataBuilder (Example.platform 0 false)
          Example.runtime (Example.builder Example.Corrupts) 1000 100 0 Example.start))
  = [ "GenericMetadataBuilder validation: "; "Metadatas do not match"; LF;
      "GenericMetadataBuilder validation: ";
      "Error! Mismatch between new/old metadata builders!"; LF;
      "GenericMetadataBuilder validation: "; "Original metadata:"; LF;
      "Metadata at 0x3e8" ++ LF;
      "GenericMetadataBuilder validation: "; "New metadata builder:"; LF;
      "Metadata at 0x10010" ++ LF ].
Proof. reflexivity. Qed.

(** A symbol of the image, an address of the image past every symbol, and a
    lookup by name at verbosity 2. *)
Example symbol_lookups :
  @InProcessReaderWriter.getSymbolInfo (Example.platform 0 false)
    (InProcessReaderWriter.mkBuffer 4100)
  = InProcessReaderWriter.mkSymbolInfo "swift_retain" "libswiftCore.dylib" 4
  /\ @InProcessReaderWriter.getSymbolInfo (Example.platform 0 false)
       (InProcessReaderWriter.mkBuffer 5000)
     = InProcessReaderWriter.mkSymbolInfo "<unknown>" "libswiftCore.dylib" 904
  /\ @InProcessReaderWriter.getSymbolPointer (Example.platform 2 false) "swift_retain"
       Example.start
     = Finished (Value (InProcessReaderWriter.mkBuffer 4096))
         (wrote [ "GenericMetadataBuilder.cpp:222:getSymbolPointer: ";
                  "getSymbolPointer(" ++ DQUOTE ++ "swift_retain" ++ DQUOTE ++ ") -> 0x1000";
                  LF ]
            Example.start).
Proof. repeat split. Qed.

(** A write one byte before the region is refused in a build with
    assertions, and the memory is left as it was. *)
Example write_before_the_region :
  @InProcessReaderWriter.write (Example.platform 0 false)
    InProcessReaderWriter.WritePointer_Typed
    (InProcessReaderWriter.mkWritableData (InProcessReaderWriter.mkBuffer 65536) 40)
    65535 (InProcessReaderWriter.mkBuffer 1) Example.start
  = Terminated AssertionFailure Example.start.
Proof. reflexivity. Qed.

(** * Further properties of the backend *)

Section FieldsOfARegion.
Import InProcessReaderWriter.
Context `{Platform}.

Lemma storeBytes_outside (bs : list byte) :
  forall (m : Memory) (addr a : Z),
    a < addr \/ addr + Z.of_nat (List.length bs) <= a ->
    storeBytes m addr bs a = m a.
Proof.
  induction bs as [|b rest IH]; intros m addr a Hout; cbn [storeBytes].
  - reflexivity.
  - cbn [List.length] in Hout. destruct (Z.eqb_spec a addr) as [->|Hne].
    + lia.
    + apply IH. lia.
Qed.

Lemma storePointer_outside (m : Memory) (t v a : Z) :
  a < t \/ t + 8 <= a -> storePointer m t v a = m a.
Proof.
  intros Hout. unfold storePointer. apply storeBytes_outside.
  rewrite length_le_split. unfold POINTER_SIZE. lia.
Qed.



(** X1: a write that passes the check changes the eight bytes of its field
    and nothing else: every other byte of memory, [stderr], the allocator's
    regions and the history stay as they were. *)
Theorem write_changes_only_its_field (op : WriteOperation) (d : WritableData) (t : Z)
    (target : Buffer) (w : World) :
  checkPtr_condition d t = true ->
  exists w',
    write op d t target w = Finished tt w'
    /\ (forall a, a < t \/ t + 8 <= a -> heap w' a = heap w a)
    /\ stderr w' = stderr w /\ allocated w' = allocated w /\ calls w' = calls w.
Proof.
  intros Hc. exists (set_heap (storePointer (heap w) t (ptr target)) w).
  split; [apply write_checked, Hc|].
  split; [|repeat split].
  intros a Hout. cbn [heap set_heap]. apply storePointer_outside, Hout.
Qed.


(** X4: a region of size zero has no field: with assertions compiled in,
    every write to it is refused, whatever the address. *)
Theorem empty_region_refuses_every_write (op : WriteOperation) (d : WritableData) (t : Z)
    (target : Buffer) (w : World) :
  NDEBUG = false -> size d = 0 ->
  write op d t target w = Terminated AssertionFailure w.
Proof.
  intros Hdebug Hempty. apply write_refused; [exact Hdebug|].
  unfold checkPtr_condition, wrap64. rewrite Hempty. apply Z.ltb_ge.
  apply Z.mod_pos_bound. lia.
Qed.


End FieldsOfARegion.

(** X3: assertions only add the check: a write whose address passes the
    check has the same outcome in every build, with assertions or without,
    whatever else the two platforms differ in. *)
Theorem checked_write_is_the_same_in_every_build (one other : Platform)
    (op : InProcessReaderWriter.WriteOperation) (d : InProcessReaderWriter.WritableData)
    (t : Z) (target : InProcessReaderWriter.Buffer) (w : World) :
  InProcessReaderWriter.checkPtr_condition d t = true ->
  @InProcessReaderWriter.write one op d t target w
  = @InProcessReaderWriter.write other op d t target w.
Proof.
  intros Hc. rewrite (@write_checked one op d t target w Hc).
  symmetry. apply (@write_checked other), Hc.
Qed.

Lemma write_changes_only_its_field_witness :
  exists w',
    @InProcessReaderWriter.write (Example.platform 0 false)
      InProcessReaderWriter.WritePointer_Const
      (InProcessReaderWriter.mkWritableData (InProcessReaderWriter.mkBuffer 65536) 24)
      65544 (InProcessReaderWriter.mkBuffer 4096) Example.start
    = Finished tt w'
    /\ (forall a, a < 65544 \/ 65544 + 8 <= a -> heap w' a = heap Example.start a)
    /\ stderr w' = [] /\ allocated w' = [] /\ calls w' = [].
Proof.
  apply (@write_changes_only_its_field (Example.platform 0 false)
           InProcessReaderWriter.WritePointer_Const
           (InProcessReaderWriter.mkWritableData (InProcessReaderWriter.mkBuffer 65536) 24)
           65544 (InProcessReaderWriter.mkBuffer 4096) Example.start).
  reflexivity.
Defined.


Lemma checked_write_is_the_same_in_every_build_witness :
  @InProcessReaderWriter.write (Example.platform 0 true)
    InProcessReaderWriter.WritePointer_StoredPointer
    (InProcessReaderWriter.mkWritableData (InProcessReaderWriter.mkBuffer 65536) 24)
    65552 (InProcessReaderWriter.mkBuffer 4096) Example.start
  = @InProcessReaderWriter.write Example.bare_platform
      InProcessReaderWriter.WritePointer_StoredPointer
      (InProcessReaderWriter.mkWritableData (InProcessReaderWriter.mkBuffer 65536) 24)
      65552 (InProcessReaderWriter.mkBuffer 4096) Example.start.
Proof.
  apply (@checked_write_is_the_same_in_every_build (Example.platform 0 true)
           Example.bare_platform
           InProcessReaderWriter.WritePointer_StoredPointer
           (InProcessReaderWriter.mkWritableData (InProcessReaderWriter.mkBuffer 65536) 24)
           65552 (InProcessReaderWriter.mkBuffer 4096) Example.start).
  reflexivity.
Defined.

Lemma empty_region_refuses_every_write_witness :
  @InProcessReaderWriter.write (Example.platform 0 false)
    InProcessReaderWriter.WritePointer_GenericArgument
    (InProcessReaderWriter.mkWritableData (InProcessReaderWriter.mkBuffer 65536) 0)
    65536 (InProcessReaderWriter.mkBuffer 4096) Example.start
  = Terminated AssertionFailure Example.start.
Proof.
  apply (@empty_region_refuses_every_write (Example.platform 0 false)
           InProcessReaderWriter.WritePointer_GenericArgument
           (InProcessReaderWriter.mkWritableData (InProcessReaderWriter.mkBuffer 65536) 0)
           65536 (InProcessReaderWriter.mkBuffer 4096) Example.start);
    reflexivity.
Defined.


Section Traces.
Import InProcessReaderWriter GenericMetadataBuilder.
Context `{Platform} `{Runtime}.

(** What [log] writes: the position, the message and a line feed at
    verbosity 2 and above, nothing below. *)
Lemma log_runs (filename : string) (line : Z) (function message : string) (w : World) :
  log filename line function message w
  = Finished tt
      (wrote (if SWIFT_DEBUG_VALIDATE_EXTERNAL_GENERIC_METADATA_BUILDER <? 2 then []
              else [filename ++ ":" ++ printf_u line ++ ":" ++ function ++ ": "; message; LF])
         w).
Proof.
  unfold log. destruct (SWIFT_DEBUG_VALIDATE_EXTERNAL_GENERIC_METADATA_BUILDER <? 2).
  - rewrite wrote_nil. reflexivity.
  - unfold bind, fputs_stderr, add_stderr, wrote. cbn [heap stderr allocated calls].
    rewrite <- !app_assoc. reflexivity.
Qed.

Lemma log_substitutions_runs (qs : list SubstitutionQuery) :
  forall w, exists text,
    log_substitutions qs w = Finished tt (wrote text w)
    /\ List.length text
       = (if (SWIFT_DEBUG_VALIDATE_EXTERNAL_GENERIC_METADATA_BUILDER <? 2)%Z then 0
          else 3 * List.length qs)%nat.
Proof.
  induction qs as [|q rest IH]; intros w; cbn [log_substitutions].
  - exists []. rewrite wrote_nil. split; [reflexivity|].
    destruct (_ <? 2); reflexivity.
  - assert (Hq : exists text1,
               log_substitution q w = Finished tt (wrote text1 w)
               /\ List.length text1
                  = (if (SWIFT_DEBUG_VALIDATE_EXTERNAL_GENERIC_METADATA_BUILDER <? 2)%Z then 0
                     else 3)%nat).
    { destruct q; cbn [log_substitution]; unfold LOG; rewrite log_runs;
        eexists; (split; [reflexivity|]); destruct (_ <? 2); reflexivity. }
    destruct Hq as (text1 & Hrun1 & Hlen1).
    destruct (IH (wrote text1 w)) as (text2 & Hrun2 & Hlen2).
    exists (text1 ++ text2)%list.
    rewrite (bind_finished _ _ _ _ _ Hrun1), Hrun2, wrote_wrote.
    split; [reflexivity|].
    rewrite length_app, Hlen1, Hlen2. cbn [List.length].
    destruct (_ <? 2); lia.
Qed.

(** X6: [getSymbolPointer] traces the lookup before it looks at the
    answer: with [dlsym], at verbosity 2 and above, one line is written
    whether the symbol was found or not; below verbosity 2, and on a platform
    without [dlsym], nothing is written; memory, the allocator and the
    history are never touched, and the call returns. *)
Theorem getSymbolPointer_traces_every_lookup (name : string) (w : World) :
  exists result,
    getSymbolPointer name w
    = Finished result
        (wrote
           (if USE_DLADDR && negb (SWIFT_DEBUG_VALIDATE_EXTERNAL_GENERIC_METADATA_BUILDER <? 2)
            then [ "GenericMetadataBuilder.cpp:222:getSymbolPointer: ";
                   "getSymbolPointer(" ++ DQUOTE ++ name ++ DQUOTE ++ ") -> "
                     ++ printf_p (if HAVE_RTLD_SELF then dlsym RTLD_SELF name
                                  else dlsym RTLD_DEFAULT name);
                   LF ]
            else [])
           w).
Proof.
  unfold getSymbolPointer, LOG. destruct USE_DLADDR; cbn [andb].
  - unfold bind at 1. rewrite log_runs.
    destruct (SWIFT_DEBUG_VALIDATE_EXTERNAL_GENERIC_METADATA_BUILDER <? 2); cbn [negb];
      match goal with |- context [if ?c then ret _ else ret _] => destruct c end;
      eexists; reflexivity.
  - rewrite wrote_nil. eexists. reflexivity.
Qed.

(** X7: [getTypeByMangledName] answers what [swift_getTypeByMangledName]
    answers for the metadata record inside the buffer's full metadata (the
    address past the header, which the cast of line 237 yields), an error as
    that error and a type as a buffer at its metadata; it writes three chunks
    of trace for each call of a substitution callback at verbosity 2 and
    above and nothing below, changes nothing else, and ignores its mangle
    node argument. *)
Theorem getTypeByMangledName_mirrors_the_runtime (d : WritableData) (node : Z)
    (name : string) (w : World) :
  exists text,
    getTypeByMangledName d node name w
    = Finished
        (match snd (swift_getTypeByMangledName (heap w) (static_cast_Metadata (ptr (buffer d))) name) with
         | Error e => Error e
         | Value type => Value (mkBuffer type)
         end)
        (wrote text w)
    /\ List.length text
       = (if (SWIFT_DEBUG_VALIDATE_EXTERNAL_GENERIC_METADATA_BUILDER <? 2)%Z then 0
          else 3 * List.length
                     (fst (swift_getTypeByMangledName (heap w) (static_cast_Metadata (ptr (buffer d))) name)))%nat
    /\ (forall node', getTypeByMangledName d node' name w
                      = getTypeByMangledName d node name w).
Proof.
  unfold getTypeByMangledName.
  change (bind get_heap ?k w) with (k (heap w) w). cbv beta zeta.
  destruct (log_substitutions_runs
              (fst (swift_getTypeByMangledName (heap w) (static_cast_Metadata (ptr (buffer d))) name)) w)
    as (text & Hrun & Hlen).
  exists text. rewrite (bind_finished _ _ _ _ _ Hrun).
  split; [|split; [exact Hlen|reflexivity]].
  destruct (snd (swift_getTypeByMangledName (heap w) (static_cast_Metadata (ptr (buffer d))) name)); reflexivity.
Qed.

(** X8: the [SymbolInfo] of any buffer is well formed: the library name
    holds no slash, the offset is a 64-bit value, and for an address at or
    above the base of its image the offset is their difference. *)
Theorem symbol_info_is_well_formed (b : Buffer) :
  occurs SLASH (libraryName (getSymbolInfo b)) = false
  /\ 0 <= pointerOffset (getSymbolInfo b) < 2 ^ 64
  /\ (forall info,
        USE_DLADDR = true -> dladdr (ptr b) = Some info ->
        0 <= dli_fbase info <= getAddress b -> getAddress b < 2 ^ 64 ->
        pointerOffset (getSymbolInfo b) = getAddress b - dli_fbase info).
Proof.
  unfold getSymbolInfo.
  destruct USE_DLADDR.
  - destruct (dladdr (ptr b)) as [info|].
    + cbn [libraryName pointerOffset]. split; [|split].
      * destruct (strrchr (match dli_fname info with
                           | Some s => s
                           | None => UNKNOWN
                           end) SLASH) as [slash|] eqn:Hslash.
        -- destruct (strrchr_some _ _ _ Hslash) as (before & after & -> & _ & Hocc).
           exact Hocc.
        -- apply strrchr_none, Hslash.
      * unfold wrap64. apply Z.mod_pos_bound. lia.
      * intros info' _ Hsome Hbase Haddr. injection Hsome as <-.
        unfold wrap64. apply Z.mod_small. lia.
    + cbn [libraryName pointerOffset].
      split; [reflexivity|]. split; [lia|]. discriminate.
  - cbn [libraryName pointerOffset].
    split; [reflexivity|]. split; [lia|]. discriminate.
Qed.

Lemma builder_op_allocates {X} (op : BuilderOp X) (w : World) :
  exists more, allocated (final_world (builder_op op w)) = (allocated w ++ more)%list.
Proof.
  destruct op as [X q|X u]; cbn [builder_op].
  - destruct (answer_returns q w) as (x & w' & Hrun & (_ & Hsame & _) & _).
    rewrite Hrun. cbn [final_world]. exists []. rewrite app_nil_r. exact Hsame.
  - destruct u; cbn [perform].
    + eexists. reflexivity.
    + rewrite write_unfold. unfold bind, checkPtr, assert, assign.
      destruct NDEBUG; [|destruct (checkPtr_condition d to)]; cbn;
        exists []; rewrite app_nil_r; reflexivity.
    + exists []. rewrite app_nil_r. reflexivity.
Qed.

Lemma run_builder_allocates {A} (r : Routine BuilderOp A) :
  forall w, exists more,
    allocated (final_world (run_builder r w)) = (allocated w ++ more)%list.
Proof.
  unfold run_builder.
  induction r as [a|X op k IH]; intros w; cbn [run].
  - exists []. symmetry. apply app_nil_r.
  - destruct (builder_op_allocates op w) as (more1 & Hmore).
    unfold bind. destruct (builder_op op w) as [x w1|why w1]; cbn [final_world] in *.
    + destruct (IH x w1) as (more2 & Hm).
      exists (more1 ++ more2)%list. rewrite Hm, Hmore. symmetry. apply app_assoc.
    + exists more1. exact Hmore.
Qed.

(** X9: a routine of the builder that returns from its run against the
    in-process backend, whatever operations it performed, has made no call
    of the harness, has only appended to [stderr], and nothing at all below
    verbosity 2, and has only added to the allocator's regions. *)
Theorem returning_builder_routine_is_confined {A} (r : Routine BuilderOp A)
    (w w' : World) (a : A) :
  run_builder r w = Finished a w' ->
  calls w' = calls w
  /\ (exists text, stderr w' = (stderr w ++ text)%list)
  /\ (SWIFT_DEBUG_VALIDATE_EXTERNAL_GENERIC_METADATA_BUILDER < 2 -> stderr w' = stderr w)
  /\ (exists more, allocated w' = (allocated w ++ more)%list).
Proof.
  intros Hrun.
  destruct (run_builder_effect r w) as ((Hcalls & Htext & Hquiet) & _).
  destruct (run_builder_allocates r w) as (more & Hmore).
  rewrite Hrun in Hcalls, Htext, Hquiet, Hmore. cbn [final_world] in *.
  split; [exact Hcalls|]. split; [exact Htext|]. split; [exact Hquiet|].
  exists more. exact Hmore.
Qed.

End Traces.

(** * Further properties of the comparison and of the harness *)

Section TableEquality.
Context `{Runtime}.

Lemma required_field_differs_sym (a b : ValueWitnessTable) (e : WitnessEntry) :
  required_field_differs a b e = required_field_differs b a e.
Proof. destruct e; cbn [required_field_differs]; rewrite Z.eqb_sym; reflexivity. Qed.

Lemma enum_field_differs_sym (a b : ValueWitnessTable) (e : WitnessEntry) :
  enum_field_differs a b e = enum_field_differs b a e.
Proof. unfold enum_field_differs. rewrite Z.eqb_sym. reflexivity. Qed.

(** [equalVWTs] in terms of its two runs of tests. *)
Lemma equalVWTs_true (a b : ValueWitnessTable) :
  equalVWTs a b = true
  <-> none_differs (required_field_differs a b) REQUIRED_VALUE_WITNESSES = true
      /\ hasEnumWitnesses a = hasEnumWitnesses b
      /\ (hasEnumWitnesses a = true ->
          none_differs (enum_field_differs a b) ENUM_VALUE_WITNESSES = true).
Proof.
  unfold equalVWTs.
  destruct (none_differs (required_field_differs a b) REQUIRED_VALUE_WITNESSES);
    cbn [negb].
  - destruct (hasEnumWitnesses a), (hasEnumWitnesses b); cbn [negb andb].
    + destruct (none_differs (enum_field_differs a b) ENUM_VALUE_WITNESSES); cbn [negb].
      * split; auto.
      * split; [discriminate|]. intros (_ & _ & Henum). apply Henum. reflexivity.
    + split; [discriminate|]. intros (_ & Hkind & _). discriminate.
    + split; [discriminate|]. intros (_ & Hkind & _). discriminate.
    + split; [|reflexivity]. intros _. split; [reflexivity|]. split; [reflexivity|].
      discriminate.
  - split; [discriminate|]. intros (Hreq & _). discriminate.
Qed.

Lemma equalVWTs_refl (a : ValueWitnessTable) : equalVWTs a a = true.
Proof.
  apply equalVWTs_true. split; [|split; [reflexivity|intros _]].
  - apply (none_differs_fields required_field_differs a a REQUIRED_VALUE_WITNESSES
             (required_field_differs_false a a)).
    apply Forall_forall. reflexivity.
  - apply (none_differs_fields enum_field_differs a a ENUM_VALUE_WITNESSES
             (enum_field_differs_false a a)).
    apply Forall_forall. reflexivity.
Qed.

Lemma equalVWTs_sym (a b : ValueWitnessTable) : equalVWTs a b = equalVWTs b a.
Proof.
  unfold equalVWTs.
  rewrite (none_differs_ext (required_field_differs a b) (required_field_differs b a))
    by (apply Forall_forall; intros e _; apply required_field_differs_sym).
  rewrite (none_differs_ext (enum_field_differs a b) (enum_field_differs b a))
    by (apply Forall_forall; intros e _; apply enum_field_differs_sym).
  destruct (hasEnumWitnesses a), (hasEnumWitnesses b); reflexivity.
Qed.

Lemma none_differs_trans
    (differs : ValueWitnessTable -> ValueWitnessTable -> WitnessEntry -> bool)
    (a b c : ValueWitnessTable) (entries : list WitnessEntry) :
  (forall x y e, differs x y e = false <-> field x (LOWER_ID_of e) = field y (LOWER_ID_of e)) ->
  none_differs (differs a b) entries = true ->
  none_differs (differs b c) entries = true ->
  none_differs (differs a c) entries = true.
Proof.
  intros Hfield Hab Hbc.
  apply (none_differs_fields differs a b entries (Hfield a b)) in Hab.
  apply (none_differs_fields differs b c entries (Hfield b c)) in Hbc.
  apply (none_differs_fields differs a c entries (Hfield a c)).
  rewrite Forall_forall in *. intros e He.
  rewrite (Hab e He). apply Hbc, He.
Qed.

(** X10: [equalVWTs] is an equivalence of tables: every table equals
    itself, the answer does not depend on the order of the two tables, and
    two tables equal to a third are equal. *)
Theorem equalVWTs_is_an_equivalence (a b c : ValueWitnessTable) :
  equalVWTs a a = true
  /\ equalVWTs a b = equalVWTs b a
  /\ (equalVWTs a b = true -> equalVWTs b c = true -> equalVWTs a c = true).
Proof.
  split; [apply equalVWTs_refl|]. split; [apply equalVWTs_sym|].
  intros Hab Hbc.
  apply equalVWTs_true in Hab. destruct Hab as (Hreq1 & Hkind1 & Henum1).
  apply equalVWTs_true in Hbc. destruct Hbc as (Hreq2 & Hkind2 & Henum2).
  apply equalVWTs_true. split; [|split; [congruence|intros Hka]].
  - apply (none_differs_trans required_field_differs a b c REQUIRED_VALUE_WITNESSES
             required_field_differs_false Hreq1 Hreq2).
  - apply (none_differs_trans enum_field_differs a b c ENUM_VALUE_WITNESSES
             enum_field_differs_false (Henum1 Hka)).
    apply Henum2. congruence.
Qed.

End TableEquality.

Section WholeHarness.
Import InProcessReaderWriter GenericMetadataBuilder.
Context `{Platform} `{Runtime} `{Builder}.

Lemma memcmp_bytes_same (xs : list byte) : memcmp_bytes xs xs = 0.
Proof.
  induction xs as [|x rest IH]; cbn [memcmp_bytes].
  - reflexivity.
  - rewrite Z.eqb_refl. exact IH.
Qed.

(** X11: a record compared with itself passes both tests, whatever lies
    in memory and whatever the extra data size: the comparison returns, and
    its history is the two tests, with no dump and no fatal error. *)
Theorem record_validates_against_itself (original extra : Z) (w : World) :
  tables_match original original (heap w) = true
  /\ bytes_match original original extra (heap w) = true
  /\ returned (compareMetadata original original extra w) = true
  /\ calls (final_world (compareMetadata original original extra w))
     = (calls w ++ match_calls original original extra (heap w))%list.
Proof.
  assert (Htables : tables_match original original (heap w) = true).
  { unfold tables_match. apply equalVWTs_refl. }
  assert (Hbytes : bytes_match original original extra (heap w) = true).
  { unfold bytes_match, memcmp. rewrite memcmp_bytes_same. reflexivity. }
  split; [exact Htables|]. split; [exact Hbytes|].
  rewrite (compareMetadata_pass original original extra w Htables Hbytes).
  split; [reflexivity|].
  cbn [final_world calls wrote add_call]. unfold match_calls.
  rewrite <- app_assoc. reflexivity.
Qed.

(** X12: the comparison reads and reports, and does nothing else: however
    it ends, memory and the allocator's regions are as before, and [stderr]
    has only been appended to. *)
Theorem comparison_is_read_only (original newMetadata extra : Z) (w : World) :
  heap (final_world (compareMetadata original newMetadata extra w)) = heap w
  /\ allocated (final_world (compareMetadata original newMetadata extra w)) = allocated w
  /\ exists text,
       stderr (final_world (compareMetadata original newMetadata extra w))
       = (stderr w ++ text)%list.
Proof.
  destruct (tables_match original newMetadata (heap w)) eqn:Htables;
    [destruct (bytes_match original newMetadata extra (heap w)) eqn:Hbytes|].
  - rewrite (compareMetadata_pass original newMetadata extra w Htables Hbytes).
    cbn [final_world heap allocated stderr wrote add_call].
    split; [reflexivity|]. split; [reflexivity|]. eexists. reflexivity.
  - destruct (compareMetadata_fail original newMetadata extra w (or_intror Hbytes))
      as (w' & text & -> & _ & Hstderr & _ & Hheap & Halloc).
    cbn [final_world]. split; [exact Hheap|]. split; [exact Halloc|].
    exists text. exact Hstderr.
  - destruct (compareMetadata_fail original newMetadata extra w (or_introl Htables))
      as (w' & text & -> & _ & Hstderr & _ & Hheap & Halloc).
    cbn [final_world]. split; [exact Hheap|]. split; [exact Halloc|].
    exists text. exact Hstderr.
Qed.

Lemma run_builder_keeps_history {A} (r : Routine BuilderOp A) (w : World) :
  keeps_history (run_builder r) w.
Proof.
  destruct (run_builder_effect r w) as ((Hcalls & _) & Hstop).
  split; assumption.
Qed.

Lemma allocateGenericValueMetadata_keeps_history (description arguments pattern extra : Z)
    (w : World) :
  keeps_history (allocateGenericValueMetadata description arguments pattern extra) w.
Proof.
  unfold keeps_history, allocateGenericValueMetadata, bind.
  destruct (run_builder_keeps_history
              (buildGenericValueMetadata (mkBuffer description) arguments
                 (mkBuffer pattern) extra) w) as (Hcalls & Hstop).
  destruct (run_builder _ w) as [[result|e] w'|why w']; cbn [final_world ret] in *;
    (split; [exact Hcalls|]); intros why' w'' Heq; try discriminate.
  injection Heq as <- _. eapply Hstop. reflexivity.
Qed.

Lemma initializeGenericValueMetadata_keeps_history (metadata : Z) (w : World) :
  keeps_history (initializeGenericValueMetadata metadata) w.
Proof.
  unfold keeps_history, initializeGenericValueMetadata, bind.
  destruct (run_builder_keeps_history
              (initializeGenericMetadata
                 (mkWritableData (mkBuffer (asFullMetadata metadata)) UINT_MAX) 0) w)
    as (Hcalls & Hstop).
  destruct (run_builder _ w) as [[[]|e] w'|why w'];
    cbn [final_world ret getError fputs_stderr add_stderr calls] in *;
    (split; [exact Hcalls|]); intros why' w'' Heq; try discriminate.
  injection Heq as <- _. eapply Hstop. reflexivity.
Qed.

(** X13: the harness ends the process in its fatal error only for a
    record that differs: when a call ends in
    [fatalError(0, "Fatal error: mismatched metadata.\n")], the descriptor
    was a generic value type descriptor, the three stages had succeeded, and
    the table test or the byte test had failed on the record they built.  An
    error of the builder, or two passing tests, never ends so. *)
Theorem fatal_error_only_on_mismatch (original description arguments : Z) (w w' : World) :
  validateExternalGenericMetadataBuilder original description arguments w
  = Terminated (FatalError 0 ("Fatal error: mismatched metadata." ++ LF)) w' ->
  isa_ValueTypeDescriptor (heap w) description = true
  /\ isGeneric (heap w) description = true
  /\ exists extra newMetadata w1 w2 w3,
       genericValueDataExtraSize description
         (DefaultInstantiationPattern (heap w) description) w = Finished (Value extra) w1
       /\ allocateGenericValueMetadata description arguments
            (DefaultInstantiationPattern (heap w) description) extra w1
          = Finished (Value newMetadata) w2
       /\ initializeGenericValueMetadata newMetadata w2 = Finished true w3
       /\ (tables_match original newMetadata (heap w3) = false
           \/ bytes_match original newMetadata extra (heap w3) = false).
Proof.
  intros Hfatal.
  destruct (isa_ValueTypeDescriptor (heap w) description) eqn:Hvalue;
    [destruct (isGeneric (heap w) description) eqn:Hgeneric|].
  - split; [reflexivity|]. split; [reflexivity|].
    rewrite (validate_generic original description arguments w Hvalue Hgeneric) in Hfatal.
    set (pattern := DefaultInstantiationPattern (heap w) description) in *.
    destruct (run_builder_keeps_history
                (extraDataSize (mkBuffer description) (mkBuffer pattern)) w)
      as (_ & Hstop1).
    fold (genericValueDataExtraSize description pattern) in Hstop1.
    unfold bind at 1 in Hfatal.
    destruct (genericValueDataExtraSize description pattern w)
      as [[extra|e] w1|why w1] eqn:Hsize.
    + destruct (allocateGenericValueMetadata_keeps_history description arguments
                  pattern extra w1) as (_ & Hstop2).
      unfold bind at 1 in Hfatal.
      destruct (allocateGenericValueMetadata description arguments pattern extra w1)
        as [[newMetadata|e] w2|why w2] eqn:Hallocate.
      * destruct (initializeGenericValueMetadata_keeps_history newMetadata w2)
          as (_ & Hstop3).
        unfold bind at 1 in Hfatal.
        destruct (initializeGenericValueMetadata newMetadata w2)
          as [[|] w3|why w3] eqn:Hinitialize; cbn [negb] in Hfatal.
        -- exists extra, newMetadata, w1, w2, w3.
           split; [reflexivity|]. split; [exact Hallocate|].
           split; [exact Hinitialize|].
           destruct (tables_match original newMetadata (heap w3)) eqn:Htables;
             [|left; reflexivity].
           destruct (bytes_match original newMetadata extra (heap w3)) eqn:Hbytes;
             [|right; reflexivity].
           rewrite (compareMetadata_pass original newMetadata extra w3 Htables Hbytes)
             in Hfatal.
           discriminate.
        -- discriminate.
        -- rewrite (Hstop3 why w3 eq_refl) in Hfatal. discriminate.
      * rewrite validationLog_runs in Hfatal. discriminate.
      * rewrite (Hstop2 why w2 eq_refl) in Hfatal. discriminate.
    + rewrite validationLog_runs in Hfatal. discriminate.
    + rewrite (Hstop1 why w1 eq_refl) in Hfatal. discriminate.
  - unfold validateExternalGenericMetadataBuilder in Hfatal.
    change (bind get_heap ?k w) with (k (heap w) w) in Hfatal. cbv beta zeta in Hfatal.
    rewrite Hvalue, Hgeneric in Hfatal. discriminate.
  - unfold validateExternalGenericMetadataBuilder in Hfatal.
    change (bind get_heap ?k w) with (k (heap w) w) in Hfatal. cbv beta zeta in Hfatal.
    rewrite Hvalue in Hfatal. discriminate.
Qed.

End WholeHarness.

(** The builder that cannot size the extra data, and the one that cannot
    allocate, at verbosity 0. *)
Lemma other_paths_are_silent_below_2_witness :
  @validateExternalGenericMetadataBuilder (Example.platform 0 false) Example.runtime
    (Example.builder Example.FailsSize) 1000 100 0 Example.start
  = Finished tt Example.start
  /\ stderr Example.start = [].
Proof.
  apply (proj1 (@other_paths_are_silent_below_2 (Example.platform 0 false)
                  Example.runtime (Example.builder Example.FailsSize) 1000 100 0
                  Example.start ltac:(cbn; lia) eq_refl eq_refl)
           (mkBuilderError "no pattern") Example.start).
  reflexivity.
Defined.

Section EndOfARegion.
Import InProcessReaderWriter.
Context `{Platform}.

Lemma storeBytes_inside (bs : list byte) :
  forall (m : Memory) (addr : Z) (i : nat) (default : byte),
    (i < List.length bs)%nat ->
    storeBytes m addr bs (addr + Z.of_nat i) = nth i bs default.
Proof.
  induction bs as [|b rest IH]; intros m addr i default Hi; cbn [List.length] in Hi.
  - lia.
  - cbn [storeBytes]. destruct i as [|j].
    + rewrite Z.add_0_r, Z.eqb_refl. reflexivity.
    + destruct (Z.eqb_spec (addr + Z.of_nat (S j)) addr) as [Heq|_]; [lia|].
      cbn [nth]. replace (addr + Z.of_nat (S j)) with (addr + 1 + Z.of_nat j) by lia.
      apply IH. lia.
Qed.

(** X15: the check looks at the address of the field only, not at its
    extent: a write at the last address of a region passes, and the seven
    further bytes of the pointer are stored past the end of the region. *)
Theorem write_at_the_last_address_passes (op : WriteOperation) (d : WritableData)
    (target : Buffer) (w : World) (i : nat) :
  0 <= base d -> 1 <= size d -> base d + size d <= 2 ^ 64 ->
  (1 <= i < 8)%nat ->
  exists w',
    write op d (base d + size d - 1) target w = Finished tt w'
    /\ base d + size d <= base d + size d - 1 + Z.of_nat i
    /\ heap w' (base d + size d - 1 + Z.of_nat i)
       = nth i (le_split POINTER_SIZE (ptr target)) Byte.x00.
Proof.
  intros Hbase Hsize Hend Hi.
  assert (Hc : checkPtr_condition d (base d + size d - 1) = true).
  { unfold checkPtr_condition, wrap64.
    replace (base d + size d - 1 - base d) with (size d - 1) by lia.
    rewrite Z.mod_small by lia. apply Z.ltb_lt. lia. }
  exists (set_heap (storePointer (heap w) (base d + size d - 1) (ptr target)) w).
  split; [apply write_checked, Hc|]. split; [lia|].
  cbn [heap set_heap]. unfold storePointer.
  apply storeBytes_inside. rewrite length_le_split. unfold POINTER_SIZE. lia.
Qed.

End EndOfARegion.

Lemma write_at_the_last_address_passes_witness :
  exists w',
    @InProcessReaderWriter.write (Example.platform 0 false)
      InProcessReaderWriter.WritePointer_Typed
      (InProcessReaderWriter.mkWritableData (InProcessReaderWriter.mkBuffer 65536) 24)
      (65536 + 24 - 1) (InProcessReaderWriter.mkBuffer 4096) Example.start
    = Finished tt w'
    /\ 65536 + 24 <= 65536 + 24 - 1 + 1
    /\ heap w' (65536 + 24 - 1 + 1) = byte.of_Z 16.
Proof.
  apply (@write_at_the_last_address_passes (Example.platform 0 false)
           InProcessReaderWriter.WritePointer_Typed
           (InProcessReaderWriter.mkWritableData (InProcessReaderWriter.mkBuffer 65536) 24)
           (InProcessReaderWriter.mkBuffer 4096) Example.start 1);
    cbn; lia.
Defined.

(** The faithful builder's allocation routine at verbosity 0. *)
Lemma returning_builder_routine_is_confined_witness :
  calls (final_world
           (@run_builder (Example.platform 0 false) Example.runtime _
              (@GenericMetadataBuilder.buildGenericValueMetadata
                 (Example.builder Example.Faithful)
                 (InProcessReaderWriter.mkBuffer 100) 0
                 (InProcessReaderWriter.mkBuffer 500) 8)
              Example.start)) = []
  /\ (exists text,
        stderr (final_world
                  (@run_builder (Example.platform 0 false) Example.runtime _
                     (@GenericMetadataBuilder.buildGenericValueMetadata
                        (Example.builder Example.Faithful)
                        (InProcessReaderWriter.mkBuffer 100) 0
                        (InProcessReaderWriter.mkBuffer 500) 8)
                     Example.start)) = text)
  /\ (0 < 2 ->
      stderr (final_world
                (@run_builder (Example.platform 0 false) Example.runtime _
                   (@GenericMetadataBuilder.buildGenericValueMetadata
                      (Example.builder Example.Faithful)
                      (InProcessReaderWriter.mkBuffer 100) 0
                      (InProcessReaderWriter.mkBuffer 500) 8)
                   Example.start)) = [])
  /\ (exists more,
        allocated (final_world
                     (@run_builder (Example.platform 0 false) Example.runtime _
                        (@GenericMetadataBuilder.buildGenericValueMetadata
                           (Example.builder Example.Faithful)
                           (InProcessReaderWriter.mkBuffer 100) 0
                           (InProcessReaderWriter.mkBuffer 500) 8)
                        Example.start)) = more).
Proof.
  apply (@returning_builder_routine_is_confined (Example.platform 0 false)
           Example.runtime _
           (@GenericMetadataBuilder.buildGenericValueMetadata
              (Example.builder Example.Faithful)
              (InProcessReaderWriter.mkBuffer 100) 0
              (InProcessReaderWriter.mkBuffer 500) 8)
           Example.start _
           (Value (GenericMetadataBuilder.mkConstructedMetadata
                     (InProcessReaderWriter.mkWritableData
                        (InProcessReaderWriter.mkBuffer 65536) 40) 16))).
  reflexivity.
Defined.

(** The corrupting builder at verbosity 0: its fatal error came after three
    successful stages, from a record that differs from the original. *)
Lemma fatal_error_only_on_mismatch_witness :
  exists extra newMetadata w3,
    @tables_match Example.runtime 1000 newMetadata (heap w3) = false
    \/ @bytes_match Example.runtime 1000 newMetadata extra (heap w3) = false.
Proof.
  destruct (@fatal_error_only_on_mismatch (Example.platform 0 false) Example.runtime
              (Example.builder Example.Corrupts) 1000 100 0 Example.start
              (final_world
                 (@validateExternalGenericMetadataBuilder (Example.platform 0 false)
                    Example.runtime (Example.builder Example.Corrupts) 1000 100 0
                    Example.start))
              eq_refl)
    as (_ & _ & extra & newMetadata & _ & _ & w3 & _ & _ & _ & Hfails).
  exists extra, newMetadata, w3. exact Hfails.
Defined.

(** The lookup of a type for the full metadata at [0x10000] asks the runtime
    about the record at [0x10010], and traces that address. *)
Example type_lookup_skips_the_header :
  @InProcessReaderWriter.getTypeByMangledName (Example.platform 2 false) Example.runtime
    (InProcessReaderWriter.mkWritableData (InProcessReaderWriter.mkBuffer 65536) 40)
    0 "x" Example.start
  = Finished (Value (InProcessReaderWriter.mkBuffer 65552))
      (wrote [ "GenericMetadataBuilder.cpp:244:operator(): ";
               "substitutions.getMetadata(0, 0).Ptr = 0x10010"; LF ]
         Example.start).
Proof. reflexivity. Qed.
